(** * Organization memberships: the admin-API handlers

    A shallow embedding of [web/src/ee/features/admin-api/server/memberships.ts]
    ([handleCreateMembership], [handleUpdateMembership],
    [handleDeleteMembership]) and the properties of the membership-creation
    workflow, of the upsert, of the removal and of the listing
    ([handleGetMemberships]), and of the admin route that dispatches to them
    ([pages/api/admin/organizations/[organizationId]/memberships.ts]).

    The handlers are sequences of awaited calls to three collaborators: the
    Prisma client, the audit recorder and the mailer.  They are embedded as
    programs of a state monad over a [World] that holds the tables, the audit
    log, the mail outbox and the ordered list of collaborator calls made so
    far.  A handler's early [return res.status(..).json(..)] is the value of
    the corresponding branch. *)

From Stdlib Require Import List String Ascii Bool Arith Lia.
From Stdlib Require Import DecimalString.
Import ListNotations.
Local Open Scope string_scope.
Local Open Scope list_scope.

(* ================================================================== *)
(** ** JavaScript values used by the handlers *)

(** [Boolean(s)] for a string: only the empty string is falsy. *)
Definition truthy (s : string) : bool :=
  match s with
  | EmptyString => false
  | String _ _ => true
  end.

(** [Boolean(x)] for [x : string | undefined]. *)
Definition truthyOpt (x : option string) : bool :=
  match x with
  | Some s => truthy s
  | None => false
  end.

(** [a || b] on [string | undefined] with a string default. *)
Definition orElse (a : option string) (b : string) : string :=
  match a with
  | Some s => if truthy s then s else b
  | None => b
  end.

Definition isSome {A : Type} (x : option A) : bool :=
  match x with
  | Some _ => true
  | None => false
  end.

(** One code unit of [String.prototype.toLowerCase] on the ASCII range:
    [A]..[Z] (65..90) move to [a]..[z], every other unit is kept.  The
    request schema only admits ASCII addresses ([z.string().email()]). *)
Definition lowerAscii (c : ascii) : ascii :=
  let n := nat_of_ascii c in
  if Nat.leb 65 n && Nat.leb n 90 then ascii_of_nat (n + 32) else c.

Fixpoint toLowerCase (s : string) : string :=
  match s with
  | EmptyString => EmptyString
  | String c rest => String (lowerAscii c) (toLowerCase rest)
  end.

(** Modelled from the spec: the [Role] enumeration of [@langfuse/shared] is
    declared outside these sources; the spec names the values NONE, MEMBER,
    ADMIN and OWNER.  Every value is a non-empty string at run time, hence
    truthy. *)
Inductive Role : Type :=
| OWNER
| ADMIN
| MEMBER
| NONE.

Definition Role_eqb (a b : Role) : bool :=
  match a, b with
  | OWNER, OWNER | ADMIN, ADMIN | MEMBER, MEMBER | NONE, NONE => true
  | _, _ => false
  end.

Definition optEqb {A : Type} (eqb : A -> A -> bool) (x y : option A) : bool :=
  match x, y with
  | Some a, Some b => eqb a b
  | None, None => true
  | _, _ => false
  end.

(* ================================================================== *)
(** ** Rows of the tables the handlers touch *)

Module User.
Record t : Type := mk { id : string; email : string; name : string }.
End User.

Module Organization.
Record t : Type := mk { id : string; name : string }.
End Organization.

Module Project.
(** [deletedAt] is the soft-delete marker, [null] for a live project. *)
Record t : Type := mk { id : string; orgId : string; deletedAt : option nat }.
End Project.

Module OrganizationMembership.
Record t : Type :=
  mk { id : string; orgId : string; userId : string; role : Role }.

Definition eqb (a b : t) : bool :=
  String.eqb (id a) (id b) && String.eqb (orgId a) (orgId b)
  && String.eqb (userId a) (userId b) && Role_eqb (role a) (role b).

Definition setRole (r : Role) (m : t) : t :=
  mk (id m) (orgId m) (userId m) r.
End OrganizationMembership.

Module ProjectMembership.
Record t : Type :=
  mk { userId : string; projectId : string; role : Role;
       orgMembershipId : string }.

Definition eqb (a b : t) : bool :=
  String.eqb (userId a) (userId b) && String.eqb (projectId a) (projectId b)
  && Role_eqb (role a) (role b)
  && String.eqb (orgMembershipId a) (orgMembershipId b).
End ProjectMembership.

Module MembershipInvitation.
Record t : Type :=
  mk { id : string; orgId : string; projectId : option string;
       email : string; orgRole : Role; projectRole : option Role;
       invitedByUserId : option string }.

Definition eqb (a b : t) : bool :=
  String.eqb (id a) (id b) && String.eqb (orgId a) (orgId b)
  && optEqb String.eqb (projectId a) (projectId b)
  && String.eqb (email a) (email b) && Role_eqb (orgRole a) (orgRole b)
  && optEqb Role_eqb (projectRole a) (projectRole b)
  && optEqb String.eqb (invitedByUserId a) (invitedByUserId b).
End MembershipInvitation.

(** The [after] snapshot handed to the audit recorder. *)
Inductive Snapshot : Type :=
| OrgMembershipRow (m : OrganizationMembership.t)
| ProjectMembershipRow (m : ProjectMembership.t)
| InvitationRow (i : MembershipInvitation.t).

Definition Snapshot_eqb (a b : Snapshot) : bool :=
  match a, b with
  | OrgMembershipRow x, OrgMembershipRow y => OrganizationMembership.eqb x y
  | ProjectMembershipRow x, ProjectMembershipRow y => ProjectMembership.eqb x y
  | InvitationRow x, InvitationRow y => MembershipInvitation.eqb x y
  | _, _ => false
  end.

Module AuditLog.
(** The argument of [auditLog({...})]. *)
Record t : Type :=
  mk { resourceType : string; resourceId : string; action : string;
       orgId : string; orgRole : Role; userId : string; after : Snapshot }.
End AuditLog.

Module Env.
Record t : Type := mk { EMAIL_FROM_ADDRESS : option string }.
End Env.

Module InvitationEmail.
(** The argument of [sendMembershipInvitationEmail({...})]. *)
Record t : Type :=
  mk { inviterEmail : string; inviterName : string; to : string;
       orgName : string; orgId : string; userExists : bool; env : Env.t }.
End InvitationEmail.

(* ================================================================== *)
(** ** Collaborator calls and the world *)

(** One awaited call, in the order the handler makes them. *)
Inductive Call : Type :=
| UserFindUniqueByEmail (email : string)
| UserFindUniqueById (id : string)
| OrganizationFindUnique (id : string)
| ProjectFindFirst (id orgId : string)
| OrganizationMembershipFindFirst (orgId userId : string)
| OrganizationMembershipCreate (row : OrganizationMembership.t)
| OrganizationMembershipUpsert (orgId userId : string) (role : Role)
| OrganizationMembershipDeleteMany (orgId userId : string)
| ProjectMembershipCreate (row : ProjectMembership.t)
| MembershipInvitationFindFirst (email orgId : string)
| MembershipInvitationCreate (row : MembershipInvitation.t)
| AuditLogCall (entry : AuditLog.t)
| SendMembershipInvitationEmail (mail : InvitationEmail.t).

Record World : Type :=
  mkWorld {
    users : list User.t;
    organizations : list Organization.t;
    projects : list Project.t;
    organizationMemberships : list OrganizationMembership.t;
    projectMemberships : list ProjectMembership.t;
    membershipInvitations : list MembershipInvitation.t;
    auditLogs : list AuditLog.t;
    outbox : list InvitationEmail.t;
    calls : list Call;
    nextId : nat;
    env : Env.t
  }.

Definition logCall (c : Call) (w : World) : World :=
  mkWorld (users w) (organizations w) (projects w)
          (organizationMemberships w) (projectMemberships w)
          (membershipInvitations w) (auditLogs w) (outbox w)
          (calls w ++ [c]) (nextId w) (env w).

Definition setOrganizationMemberships
    (l : list OrganizationMembership.t) (n : nat) (w : World) : World :=
  mkWorld (users w) (organizations w) (projects w) l (projectMemberships w)
          (membershipInvitations w) (auditLogs w) (outbox w) (calls w) n
          (env w).

Definition setProjectMemberships
    (l : list ProjectMembership.t) (w : World) : World :=
  mkWorld (users w) (organizations w) (projects w)
          (organizationMemberships w) l (membershipInvitations w)
          (auditLogs w) (outbox w) (calls w) (nextId w) (env w).

Definition setMembershipInvitations
    (l : list MembershipInvitation.t) (n : nat) (w : World) : World :=
  mkWorld (users w) (organizations w) (projects w)
          (organizationMemberships w) (projectMemberships w) l (auditLogs w)
          (outbox w) (calls w) n (env w).

Definition setAuditLogs (l : list AuditLog.t) (w : World) : World :=
  mkWorld (users w) (organizations w) (projects w)
          (organizationMemberships w) (projectMemberships w)
          (membershipInvitations w) l (outbox w) (calls w) (nextId w) (env w).

Definition setOutbox (l : list InvitationEmail.t) (w : World) : World :=
  mkWorld (users w) (organizations w) (projects w)
          (organizationMemberships w) (projectMemberships w)
          (membershipInvitations w) (auditLogs w) l (calls w) (nextId w)
          (env w).

(** The database's default for a generated [id] column.  The generator is
    outside these sources; the world hands out the decimal numerals of a
    counter, prefixed so that they read as row ids. *)
Definition freshId (n : nat) : string :=
  "id_" ++ NilEmpty.string_of_uint (Nat.to_uint n).
Arguments freshId : simpl never.

(* ================================================================== *)
(** ** The monad of awaited calls *)

Definition Prog (A : Type) : Type := World -> A * World.

Definition ret {A : Type} (a : A) : Prog A := fun w => (a, w).

Definition bind {A B : Type} (m : Prog A) (k : A -> Prog B) : Prog B :=
  fun w => let (a, w') := m w in k a w'.

Declare Scope prog_scope.
Delimit Scope prog_scope with prog.
Notation "x <- m ;; k" := (bind m (fun x => k))
  (at level 61, m at next level, right associativity) : prog_scope.
Notation "m ;;; k" := (bind m (fun _ => k))
  (at level 61, right associativity) : prog_scope.
Local Open Scope prog_scope.

(** A read: the call is logged, the tables are left alone. *)
Definition query {A : Type} (c : Call) (f : World -> A) : Prog A :=
  fun w => (f w, logCall c w).

(* ------------------------------------------------------------------ *)
(** *** The Prisma client *)

Definition userByEmail (email : string) (w : World) : option User.t :=
  find (fun u => String.eqb (User.email u) email) (users w).

Definition userById (id : string) (w : World) : option User.t :=
  find (fun u => String.eqb (User.id u) id) (users w).

Definition organizationById (id : string) (w : World)
  : option Organization.t :=
  find (fun o => String.eqb (Organization.id o) id) (organizations w).

(** [where: { id, orgId, deletedAt: null }]. *)
Definition liveProject (id orgId : string) (p : Project.t) : bool :=
  String.eqb (Project.id p) id && String.eqb (Project.orgId p) orgId
  && negb (isSome (Project.deletedAt p)).

Definition projectIn (id orgId : string) (w : World) : option Project.t :=
  find (liveProject id orgId) (projects w).

(** [where: { orgId, userId }]. *)
Definition membershipKey (orgId userId : string)
    (m : OrganizationMembership.t) : bool :=
  String.eqb (OrganizationMembership.orgId m) orgId
  && String.eqb (OrganizationMembership.userId m) userId.

Definition membershipOf (orgId userId : string) (w : World)
  : option OrganizationMembership.t :=
  find (membershipKey orgId userId) (organizationMemberships w).

(** [where: { email, orgId }]. *)
Definition invitationKey (email orgId : string)
    (i : MembershipInvitation.t) : bool :=
  String.eqb (MembershipInvitation.email i) email
  && String.eqb (MembershipInvitation.orgId i) orgId.

Definition invitationFor (email orgId : string) (w : World)
  : option MembershipInvitation.t :=
  find (invitationKey email orgId) (membershipInvitations w).

Definition prisma_user_findUnique_email (email : string)
  : Prog (option User.t) :=
  query (UserFindUniqueByEmail email) (userByEmail email).

Definition prisma_user_findUnique_id (id : string) : Prog (option User.t) :=
  query (UserFindUniqueById id) (userById id).

Definition prisma_organization_findUnique (id : string)
  : Prog (option Organization.t) :=
  query (OrganizationFindUnique id) (organizationById id).

Definition prisma_project_findFirst (id orgId : string)
  : Prog (option Project.t) :=
  query (ProjectFindFirst id orgId) (projectIn id orgId).

Definition prisma_organizationMembership_findFirst (orgId userId : string)
  : Prog (option OrganizationMembership.t) :=
  query (OrganizationMembershipFindFirst orgId userId)
        (membershipOf orgId userId).

Definition prisma_membershipInvitation_findFirst (email orgId : string)
  : Prog (option MembershipInvitation.t) :=
  query (MembershipInvitationFindFirst email orgId)
        (invitationFor email orgId).

(** [create] inserts the row, the database filling in the [id]. *)
Definition prisma_organizationMembership_create
    (userId orgId : string) (role : Role) : Prog OrganizationMembership.t :=
  fun w =>
    let row :=
      OrganizationMembership.mk (freshId (nextId w)) orgId userId role in
    (row,
     logCall (OrganizationMembershipCreate row)
       (setOrganizationMemberships (organizationMemberships w ++ [row])
          (S (nextId w)) w)).

Definition prisma_projectMembership_create
    (userId projectId : string) (role : Role) (orgMembershipId : string)
  : Prog ProjectMembership.t :=
  fun w =>
    let row := ProjectMembership.mk userId projectId role orgMembershipId in
    (row,
     logCall (ProjectMembershipCreate row)
       (setProjectMemberships (projectMemberships w ++ [row]) w)).

Definition prisma_membershipInvitation_create
    (orgId : string) (projectId : option string) (email : string)
    (orgRole : Role) (projectRole : option Role)
    (invitedByUserId : option string) : Prog MembershipInvitation.t :=
  fun w =>
    let row :=
      MembershipInvitation.mk (freshId (nextId w)) orgId projectId email
        orgRole projectRole invitedByUserId in
    (row,
     logCall (MembershipInvitationCreate row)
       (setMembershipInvitations (membershipInvitations w ++ [row])
          (S (nextId w)) w)).

(** The single row a unique [where] selects is rewritten where it stands. *)
Fixpoint updateFirst {A : Type} (p : A -> bool) (f : A -> A) (l : list A)
  : list A :=
  match l with
  | [] => []
  | x :: rest => if p x then f x :: rest else x :: updateFirst p f rest
  end.

(** [upsert({ where: { orgId_userId }, update: { role }, create: {...} })]. *)
Definition prisma_organizationMembership_upsert
    (orgId userId : string) (role : Role) : Prog OrganizationMembership.t :=
  fun w =>
    match membershipOf orgId userId w with
    | Some m =>
        (OrganizationMembership.setRole role m,
         logCall (OrganizationMembershipUpsert orgId userId role)
           (setOrganizationMemberships
              (updateFirst (membershipKey orgId userId)
                 (OrganizationMembership.setRole role)
                 (organizationMemberships w))
              (nextId w) w))
    | None =>
        let row :=
          OrganizationMembership.mk (freshId (nextId w)) orgId userId role in
        (row,
         logCall (OrganizationMembershipUpsert orgId userId role)
           (setOrganizationMemberships (organizationMemberships w ++ [row])
              (S (nextId w)) w))
    end.

Definition prisma_organizationMembership_deleteMany (orgId userId : string)
  : Prog unit :=
  fun w =>
    (tt,
     logCall (OrganizationMembershipDeleteMany orgId userId)
       (setOrganizationMemberships
          (filter (fun m => negb (membershipKey orgId userId m))
             (organizationMemberships w))
          (nextId w) w)).

(* ------------------------------------------------------------------ *)
(** *** The audit recorder and the mailer *)

(** Modelled from the spec: [auditLog] lives outside these sources; the
    Audit Recorder appends an immutable record of the mutating action. *)
Definition auditLog (entry : AuditLog.t) : Prog unit :=
  fun w =>
    (tt,
     logCall (AuditLogCall entry) (setAuditLogs (auditLogs w ++ [entry]) w)).

(** Modelled from the spec: [sendMembershipInvitationEmail] lives outside
    these sources; the Notification Gateway sends the invitation email, and
    the outbox keeps what was handed to it. *)
Definition sendMembershipInvitationEmail (mail : InvitationEmail.t)
  : Prog unit :=
  fun w =>
    (tt,
     logCall (SendMembershipInvitationEmail mail)
       (setOutbox (outbox w ++ [mail]) w)).

Definition getEnv : Prog Env.t := fun w => (env w, w).

(* ================================================================== *)
(** ** Requests and responses *)

(** The outcome of [Schema.safeParse(req.body)]: the handlers only look at
    [success], [error.issues] and [data]. *)
Inductive SafeParse (A : Type) : Type :=
| ParseFailure (issues : list string)
| ParseSuccess (data : A).
Arguments ParseFailure {A} issues.
Arguments ParseSuccess {A} data.

Module CreateMembership.
(** [z.infer<typeof CreateMembershipSchema>]. *)
Record t : Type :=
  mk { email : string; role : Role; projectId : option string;
       projectRole : option Role }.
End CreateMembership.

Module Membership.
(** [z.infer<typeof MembershipSchema>]. *)
Record t : Type := mk { userId : string; role : Role }.
End Membership.

Module DeleteMembership.
(** [z.infer<typeof DeleteMembershipSchema>]. *)
Record t : Type := mk { userId : string }.
End DeleteMembership.

(** The JSON bodies the handlers send. *)
Inductive Json : Type :=
| ErrorJson (error : string)
| InvalidJson (error : string) (details : list string)
| MembershipJson (userId : string) (role : Role) (email name : string)
| InvitationJson (invitationId email : string) (role : Role) (status : string)
| DeletedJson (message userId : string).

(** [res.status(code).json(body)]. *)
Record Response : Type := respond { status : nat; json : Json }.

(* ================================================================== *)
(** ** The handlers *)

(** Lines 110-191: the user exists. *)
Definition existingUserBranch
    (d : CreateMembership.t) (orgId : string) (user : User.t)
    (org : Organization.t) (project : option Project.t) : Prog Response :=
  existingOrgMembership <-
    prisma_organizationMembership_findFirst orgId (User.id user) ;;
  match existingOrgMembership with
  | Some _ =>
      ret (respond 409
             (ErrorJson "User is already a member of this organization"))
  | None =>
      orgMembership <-
        prisma_organizationMembership_create (User.id user) orgId
          (CreateMembership.role d) ;;
      auditLog
        (AuditLog.mk "orgMembership" (OrganizationMembership.id orgMembership)
           "create" orgId (CreateMembership.role d) "API"
           (OrgMembershipRow orgMembership)) ;;;
      match project, CreateMembership.projectRole d with
      | Some project, Some projectRole =>
          if negb (Role_eqb projectRole NONE) then
            projectMembership <-
              prisma_projectMembership_create (User.id user)
                (Project.id project) projectRole
                (OrganizationMembership.id orgMembership) ;;
            auditLog
              (AuditLog.mk "projectMembership"
                 (Project.id project ++ "--" ++ User.id user)
                 "create" orgId (CreateMembership.role d) "API"
                 (ProjectMembershipRow projectMembership))
          else ret tt
      | _, _ => ret tt
      end ;;;
      env <- getEnv ;;
      sendMembershipInvitationEmail
        (InvitationEmail.mk
           (orElse (Env.EMAIL_FROM_ADDRESS env) "noreply@langfuse.com")
           "Organization Admin" (CreateMembership.email d)
           (Organization.name org) orgId true env) ;;;
      ret (respond 200
             (MembershipJson (User.id user) (CreateMembership.role d)
                (User.email user) (User.name user)))
  end.

(** Lines 192-245: no user has that email. *)
Definition newUserBranch
    (d : CreateMembership.t) (orgId : string)
    (org : Organization.t) (project : option Project.t) : Prog Response :=
  existingInvitation <-
    prisma_membershipInvitation_findFirst
      (toLowerCase (CreateMembership.email d)) orgId ;;
  match existingInvitation with
  | Some _ =>
      ret (respond 409 (ErrorJson "Invitation already exists for this email"))
  | None =>
      invitation <-
        prisma_membershipInvitation_create orgId
          match project, CreateMembership.projectRole d with
          | Some project, Some projectRole =>
              if negb (Role_eqb projectRole NONE)
              then Some (Project.id project) else None
          | _, _ => None
          end
          (toLowerCase (CreateMembership.email d))
          (CreateMembership.role d)
          match CreateMembership.projectRole d, project with
          | Some projectRole, Some _ =>
              if negb (Role_eqb projectRole NONE)
              then Some projectRole else None
          | _, _ => None
          end
          None ;;
      auditLog
        (AuditLog.mk "membershipInvitation" (MembershipInvitation.id invitation)
           "create" orgId (CreateMembership.role d) "API"
           (InvitationRow invitation)) ;;;
      env <- getEnv ;;
      sendMembershipInvitationEmail
        (InvitationEmail.mk
           (orElse (Env.EMAIL_FROM_ADDRESS env) "noreply@langfuse.com")
           "Organization Admin" (CreateMembership.email d)
           (Organization.name org) orgId false env) ;;;
      ret (respond 200
             (InvitationJson (MembershipInvitation.id invitation)
                (CreateMembership.email d) (CreateMembership.role d)
                "PENDING"))
  end.

(** POST - invite a user to an organization (lines 59-246). *)
Definition handleCreateMembership
    (validatedBody : SafeParse CreateMembership.t) (orgId : string)
  : Prog Response :=
  match validatedBody with
  | ParseFailure issues =>
      ret (respond 400 (InvalidJson "Invalid request body" issues))
  | ParseSuccess d =>
      user <-
        prisma_user_findUnique_email (toLowerCase (CreateMembership.email d)) ;;
      org <- prisma_organization_findUnique orgId ;;
      match org with
      | None => ret (respond 404 (ErrorJson "Organization not found"))
      | Some org =>
          project <-
            match CreateMembership.projectId d with
            | Some projectId =>
                if truthy projectId
                then prisma_project_findFirst projectId orgId
                else ret None
            | None => ret None
            end ;;
          if truthyOpt (CreateMembership.projectId d) && negb (isSome project)
          then
            ret (respond 404
                   (ErrorJson "Project not found in this organization"))
          else
            match user with
            | Some user => existingUserBranch d orgId user org project
            | None => newUserBranch d orgId org project
            end
      end
  end.

(** PUT - update or create an organization membership (lines 249-299). *)
Definition handleUpdateMembership
    (validatedBody : SafeParse Membership.t) (orgId : string)
  : Prog Response :=
  match validatedBody with
  | ParseFailure issues =>
      ret (respond 400 (InvalidJson "Invalid request body" issues))
  | ParseSuccess d =>
      user <- prisma_user_findUnique_id (Membership.userId d) ;;
      match user with
      | None => ret (respond 404 (ErrorJson "User not found"))
      | Some user =>
          membership <-
            prisma_organizationMembership_upsert orgId (Membership.userId d)
              (Membership.role d) ;;
          ret (respond 200
                 (MembershipJson (OrganizationMembership.userId membership)
                    (OrganizationMembership.role membership)
                    (User.email user) (User.name user)))
      end
  end.

(** DELETE - remove an organization membership (lines 302-327). *)
Definition handleDeleteMembership
    (validatedBody : SafeParse DeleteMembership.t) (orgId : string)
  : Prog Response :=
  match validatedBody with
  | ParseFailure issues =>
      ret (respond 400 (InvalidJson "Invalid request body" issues))
  | ParseSuccess d =>
      prisma_organizationMembership_deleteMany orgId
        (DeleteMembership.userId d) ;;;
      ret (respond 200
             (DeletedJson "Membership deleted successfully"
                (DeleteMembership.userId d)))
  end.

(* ================================================================== *)
(** ** Vocabulary of the statements *)

(** Lines 94-102 as a function of the tables: the [project] the handler
    works with.  An absent or empty [projectId] is falsy and resolves to
    [null] without a lookup. *)
Definition resolvedProject
    (d : CreateMembership.t) (orgId : string) (w : World)
  : option Project.t :=
  match CreateMembership.projectId d with
  | Some projectId =>
      if truthy projectId then projectIn projectId orgId w else None
  | None => None
  end.

(** The negation of the guard on line 104, [projectId && !project]. *)
Definition projectFound
    (d : CreateMembership.t) (orgId : string) (w : World) : bool :=
  negb (truthyOpt (CreateMembership.projectId d)
        && negb (isSome (resolvedProject d orgId w))).

(** [project && projectRole && projectRole !== Role.NONE], with the project
    and the role it lets through. *)
Definition grantedProjectRole
    (project : option Project.t) (projectRole : option Role)
  : option (Project.t * Role) :=
  match project, projectRole with
  | Some p, Some r => if negb (Role_eqb r NONE) then Some (p, r) else None
  | _, _ => None
  end.

Definition optList {A B : Type} (f : A -> B) (o : option A) : list B :=
  match o with
  | Some a => [f a]
  | None => []
  end.

(** The rows, audit entries and mails a run builds. *)
Definition newOrgMembership
    (d : CreateMembership.t) (orgId : string) (u : User.t) (w : World)
  : OrganizationMembership.t :=
  OrganizationMembership.mk (freshId (nextId w)) orgId (User.id u)
    (CreateMembership.role d).

Definition orgMembershipAudit
    (d : CreateMembership.t) (orgId : string) (om : OrganizationMembership.t)
  : AuditLog.t :=
  AuditLog.mk "orgMembership" (OrganizationMembership.id om) "create" orgId
    (CreateMembership.role d) "API" (OrgMembershipRow om).

Definition newProjectMembership
    (u : User.t) (om : OrganizationMembership.t) (g : Project.t * Role)
  : ProjectMembership.t :=
  ProjectMembership.mk (User.id u) (Project.id (fst g)) (snd g)
    (OrganizationMembership.id om).

Definition projectMembershipAudit
    (d : CreateMembership.t) (orgId : string) (pm : ProjectMembership.t)
  : AuditLog.t :=
  AuditLog.mk "projectMembership"
    (ProjectMembership.projectId pm ++ "--" ++ ProjectMembership.userId pm)
    "create" orgId (CreateMembership.role d) "API" (ProjectMembershipRow pm).

Definition newInvitation
    (d : CreateMembership.t) (orgId : string) (project : option Project.t)
    (w : World) : MembershipInvitation.t :=
  let g := grantedProjectRole project (CreateMembership.projectRole d) in
  MembershipInvitation.mk (freshId (nextId w)) orgId
    (option_map (fun x => Project.id (fst x)) g)
    (toLowerCase (CreateMembership.email d)) (CreateMembership.role d)
    (option_map snd g) None.

Definition invitationAudit
    (d : CreateMembership.t) (orgId : string) (i : MembershipInvitation.t)
  : AuditLog.t :=
  AuditLog.mk "membershipInvitation" (MembershipInvitation.id i) "create"
    orgId (CreateMembership.role d) "API" (InvitationRow i).

Definition invitationEmail
    (d : CreateMembership.t) (orgId : string) (org : Organization.t)
    (userExists : bool) (w : World) : InvitationEmail.t :=
  InvitationEmail.mk
    (orElse (Env.EMAIL_FROM_ADDRESS (env w)) "noreply@langfuse.com")
    "Organization Admin" (CreateMembership.email d) (Organization.name org)
    orgId userExists (env w).

(** The reads every run with a parsed body starts with (lines 75-102). *)
Definition preambleCalls (d : CreateMembership.t) (orgId : string)
  : list Call :=
  [UserFindUniqueByEmail (toLowerCase (CreateMembership.email d));
   OrganizationFindUnique orgId]
  ++ match CreateMembership.projectId d with
     | Some projectId =>
         if truthy projectId then [ProjectFindFirst projectId orgId] else []
     | None => []
     end.

(** Worlds that differ by logged calls only, and by appended rows. *)
Definition logCalls (cs : list Call) (w : World) : World :=
  mkWorld (users w) (organizations w) (projects w)
          (organizationMemberships w) (projectMemberships w)
          (membershipInvitations w) (auditLogs w) (outbox w)
          (calls w ++ cs) (nextId w) (env w).

Definition extend
    (oms : list OrganizationMembership.t) (pms : list ProjectMembership.t)
    (invs : list MembershipInvitation.t) (audits : list AuditLog.t)
    (mails : list InvitationEmail.t) (cs : list Call) (ids : nat)
    (w : World) : World :=
  mkWorld (users w) (organizations w) (projects w)
          (organizationMemberships w ++ oms) (projectMemberships w ++ pms)
          (membershipInvitations w ++ invs) (auditLogs w ++ audits)
          (outbox w ++ mails) (calls w ++ cs) (ids + nextId w) (env w).

(** What a run added to a log that only grows. *)
Definition added {A : Type} (before after : list A) : list A :=
  skipn (List.length before) after.

Definition newCalls (w w' : World) : list Call := added (calls w) (calls w').

Definition newAudits (w w' : World) : list AuditLog.t :=
  added (auditLogs w) (auditLogs w').

(* ------------------------------------------------------------------ *)
(** *** Reading the order of calls *)

Definition isWrite (c : Call) : bool :=
  match c with
  | OrganizationMembershipCreate _ | OrganizationMembershipUpsert _ _ _
  | OrganizationMembershipDeleteMany _ _ | ProjectMembershipCreate _
  | MembershipInvitationCreate _ => true
  | _ => false
  end.

Definition isAudit (c : Call) : bool :=
  match c with
  | AuditLogCall _ => true
  | _ => false
  end.

Definition isSend (c : Call) : bool :=
  match c with
  | SendMembershipInvitationEmail _ => true
  | _ => false
  end.

Definition isUserLookup (c : Call) : bool :=
  match c with
  | UserFindUniqueByEmail _ | UserFindUniqueById _ => true
  | _ => false
  end.

Definition isOrganizationLookup (c : Call) : bool :=
  match c with
  | OrganizationFindUnique _ => true
  | _ => false
  end.

Definition isMembershipLookup (c : Call) : bool :=
  match c with
  | OrganizationMembershipFindFirst _ _ => true
  | _ => false
  end.

Definition isInvitationLookup (c : Call) : bool :=
  match c with
  | MembershipInvitationFindFirst _ _ => true
  | _ => false
  end.

(** The row a [create] call returned. *)
Definition createdRow (c : Call) : option Snapshot :=
  match c with
  | OrganizationMembershipCreate row => Some (OrgMembershipRow row)
  | ProjectMembershipCreate row => Some (ProjectMembershipRow row)
  | MembershipInvitationCreate row => Some (InvitationRow row)
  | _ => None
  end.

(** [e] is the audit entry of the creation of [row]. *)
Definition describes (e : AuditLog.t) (row : Snapshot) : bool :=
  Snapshot_eqb (AuditLog.after e) row
  && String.eqb (AuditLog.action e) "create".

(** Every write is a [create] and the very next call is its audit entry. *)
Fixpoint auditedWrites (cs : list Call) : bool :=
  match cs with
  | [] => true
  | c :: rest =>
      (if isWrite c then
         match createdRow c, rest with
         | Some row, AuditLogCall e :: _ => describes e row
         | _, _ => false
         end
       else true)
      && auditedWrites rest
  end.

(** No write and no audit entry comes after a notification. *)
Fixpoint nothingAfterSend (cs : list Call) : bool :=
  match cs with
  | [] => true
  | c :: rest =>
      (if isSend c
       then forallb (fun x => negb (isWrite x || isAudit x)) rest
       else true)
      && nothingAfterSend rest
  end.

(** Every notification has a write before it; [seen] tells whether a write
    was already met. *)
Fixpoint sendNeedsWrite (seen : bool) (cs : list Call) : bool :=
  match cs with
  | [] => true
  | c :: rest =>
      (if isSend c then seen else true)
      && sendNeedsWrite (seen || isWrite c) rest
  end.

Fixpoint firstIndex (p : Call -> bool) (cs : list Call) : option nat :=
  match cs with
  | [] => None
  | c :: rest =>
      if p c then Some 0 else option_map S (firstIndex p rest)
  end.

(** Both kinds of call occur, the first [p] before the first [q]. *)
Definition precedes (p q : Call -> bool) (cs : list Call) : bool :=
  match firstIndex p cs, firstIndex q cs with
  | Some i, Some j => Nat.ltb i j
  | _, _ => false
  end.

Definition count {A : Type} (p : A -> bool) (l : list A) : nat :=
  List.length (filter p l).

Definition isRead (c : Call) : bool :=
  negb (isWrite c || isAudit c || isSend c).

Definition isProjectLookup (c : Call) : bool :=
  match c with
  | ProjectFindFirst _ _ => true
  | _ => false
  end.

(** The write a notification reports: the membership for a mail with
    [userExists = true], the invitation otherwise. *)
Definition correspondingWrite (mail : InvitationEmail.t) (c : Call) : bool :=
  match c with
  | OrganizationMembershipCreate _ => InvitationEmail.userExists mail
  | MembershipInvitationCreate _ => negb (InvitationEmail.userExists mail)
  | _ => false
  end.

(* ------------------------------------------------------------------ *)
(** *** Two readings of the workflow that the handler is checked against *)

(** The organization is looked up before the user in every run. *)
Definition organizationLookupFirst : Prop :=
  forall (d : CreateMembership.t) (orgId : string) (w : World),
    precedes isOrganizationLookup isUserLookup
      (newCalls w (snd (handleCreateMembership (ParseSuccess d) orgId w)))
    = true.

(** A stored user whose email differs from the request email only in letter
    case is found, and the existing-user branch is taken. *)
Definition userMatchIgnoresCase : Prop :=
  forall (d : CreateMembership.t) (orgId : string) (w : World)
         (org : Organization.t) (u : User.t),
    organizationById orgId w = Some org ->
    projectFound d orgId w = true ->
    In u (users w) ->
    toLowerCase (User.email u) = toLowerCase (CreateMembership.email d) ->
    existsb isMembershipLookup
      (newCalls w (snd (handleCreateMembership (ParseSuccess d) orgId w)))
    = true.

(** A stored invitation of the organization whose email differs from the
    request email only in letter case raises the invitation-exists
    conflict when no user has that email. *)
Definition invitationMatchIgnoresCase : Prop :=
  forall (d : CreateMembership.t) (orgId : string) (w : World)
         (org : Organization.t) (i : MembershipInvitation.t),
    organizationById orgId w = Some org ->
    projectFound d orgId w = true ->
    userByEmail (toLowerCase (CreateMembership.email d)) w = None ->
    In i (membershipInvitations w) ->
    MembershipInvitation.orgId i = orgId ->
    toLowerCase (MembershipInvitation.email i)
    = toLowerCase (CreateMembership.email d) ->
    fst (handleCreateMembership (ParseSuccess d) orgId w)
    = respond 409 (ErrorJson "Invitation already exists for this email").

Definition emailMatchIgnoresCase : Prop :=
  userMatchIgnoresCase /\ invitationMatchIgnoresCase.

(* ------------------------------------------------------------------ *)
(** *** Sample data *)

Module Sample.
Definition acme : Organization.t := Organization.mk "org_1" "Acme".

Definition existing : User.t :=
  User.mk "u1" "existing@x.com" "Existing User".

(** A user stored with a capital letter in the address. *)
Definition bob : User.t := User.mk "u2" "Bob@x.com" "Bob".

(** One organization, a live project, a soft-deleted one and one of another
    organization; no membership, no invitation yet. *)
Definition world : World :=
  mkWorld [existing; bob] [acme]
    [Project.mk "proj_1" "org_1" None;
     Project.mk "proj_old" "org_1" (Some 7);
     Project.mk "proj_far" "org_2" None]
    [] [] [] [] [] [] 0 (Env.mk None).

(** An existing user, as ADMIN, with MEMBER on [proj_1]. *)
Definition addExisting : CreateMembership.t :=
  CreateMembership.mk "existing@x.com" ADMIN (Some "proj_1") (Some MEMBER).

(** The same user again, in other letter case, asking for another role. *)
Definition addExistingAgain : CreateMembership.t :=
  CreateMembership.mk "Existing@X.com" OWNER None None.

(** An address without an account. *)
Definition inviteNew : CreateMembership.t :=
  CreateMembership.mk "new@x.com" MEMBER None None.

Definition inviteNewAgain : CreateMembership.t :=
  CreateMembership.mk "NEW@x.com" ADMIN (Some "proj_1") (Some MEMBER).

(** The request address differs from Bob's stored one in case only. *)
Definition addBob : CreateMembership.t :=
  CreateMembership.mk "bob@x.com" MEMBER None None.

Definition update : Membership.t := Membership.mk "u1" ADMIN.

Definition updateAgain : Membership.t := Membership.mk "u1" MEMBER.
End Sample.

(* ================================================================== *)
(** ** The listing and the admin route *)

Module MemberEntry.
(** One element of the [memberships] array of the listing. *)
Record t : Type :=
  mk { userId : string; role : Role; email : string; name : string }.
End MemberEntry.

(** [where: { orgId }], in the order of the table. *)
Definition membershipsOfOrg (orgId : string) (w : World)
  : list OrganizationMembership.t :=
  filter (fun m => String.eqb (OrganizationMembership.orgId m) orgId)
    (organizationMemberships w).

(** [include: { user: {...} }]: every row with the user it belongs to.  The
    relation is a required one; the client rejects the query when a row has
    no user, which is [None] here. *)
Fixpoint withUsers (w : World) (l : list OrganizationMembership.t)
  : option (list (OrganizationMembership.t * User.t)) :=
  match l with
  | [] => Some []
  | m :: rest =>
      match userById (OrganizationMembership.userId m) w, withUsers w rest with
      | Some u, Some joined => Some ((m, u) :: joined)
      | _, _ => None
      end
  end.

(** [findMany] reads the tables and changes nothing.  The log of calls keeps
    the calls of the writing handlers; this read is not entered in it. *)
Definition prisma_organizationMembership_findMany (orgId : string)
  : Prog (option (list (OrganizationMembership.t * User.t))) :=
  fun w => (withUsers w (membershipsOfOrg orgId w), w).

(** [res.status(code).json({ memberships })]. *)
Record MembershipsResponse : Type :=
  respondMemberships { listStatus : nat; memberships : list MemberEntry.t }.

Definition memberEntry (row : OrganizationMembership.t * User.t)
  : MemberEntry.t :=
  MemberEntry.mk (OrganizationMembership.userId (fst row))
    (OrganizationMembership.role (fst row)) (User.email (snd row))
    (User.name (snd row)).

(** GET - retrieve all organization memberships (lines 28-56).  [None] is
    the rejected query: the handler sends nothing. *)
Definition handleGetMemberships (orgId : string)
  : Prog (option MembershipsResponse) :=
  memberships <- prisma_organizationMembership_findMany orgId ;;
  match memberships with
  | None => ret None
  | Some memberships =>
      ret (Some (respondMemberships 200 (map memberEntry memberships)))
  end.

(** What a request to the admin route ends with: a JSON body of one of the
    handlers, or the listing. *)
Inductive Sent : Type :=
| SentJson (r : Response)
| SentMemberships (r : MembershipsResponse).

(** [AdminApiAuthService.handleAdminAuth(req, res)] lives outside these
    sources: either it returns [true], or it has answered the request itself
    and returns [false]. *)
Inductive AdminAuth : Type :=
| Authorized
| Denied (answer : Response).

Section AdminRoute.

(** [req.body], and the two schemas applied to it. *)
Variable Body : Type.
Variable MembershipSchema_safeParse : Body -> SafeParse Membership.t.
Variable DeleteMembershipSchema_safeParse
  : Body -> SafeParse DeleteMembership.t.

Record Request : Type :=
  mkRequest { method : option string; organizationId : string; body : Body }.

Variable handleAdminAuth : Request -> AdminAuth.

(** [case name:] of the [switch (req.method)]: strict equality with the
    method of the request. *)
Definition methodIs (req : Request) (name : string) : bool :=
  match method req with
  | Some m => String.eqb m name
  | None => false
  end.

(** [pages/api/admin/organizations/[organizationId]/memberships.ts]: the
    default export.  [None] is a request no handler answered. *)
Definition handler (req : Request) : Prog (option Sent) :=
  match handleAdminAuth req with
  | Denied answer => ret (Some (SentJson answer))
  | Authorized =>
      let orgId := organizationId req in
      if methodIs req "GET" then
        r <- handleGetMemberships orgId ;;
        ret (option_map SentMemberships r)
      else if methodIs req "PUT" then
        r <- handleUpdateMembership (MembershipSchema_safeParse (body req))
               orgId ;;
        ret (Some (SentJson r))
      else if methodIs req "DELETE" then
        r <- handleDeleteMembership
               (DeleteMembershipSchema_safeParse (body req)) orgId ;;
        ret (Some (SentJson r))
      else
        ret (Some (SentJson (respond 405 (ErrorJson "Method not allowed"))))
  end.

End AdminRoute.
Arguments mkRequest {Body} method organizationId body.
Arguments method {Body} r.
Arguments organizationId {Body} r.
Arguments body {Body} r.
Arguments methodIs {Body} req name.
Arguments handler {Body} MembershipSchema_safeParse
  DeleteMembershipSchema_safeParse handleAdminAuth req.

(* ------------------------------------------------------------------ *)
(** *** Invariants of the tables *)

(** No two elements of the list are related by [same]. *)
Fixpoint distinctBy {A : Type} (same : A -> A -> bool) (l : list A) : bool :=
  match l with
  | [] => true
  | x :: rest => negb (existsb (same x) rest) && distinctBy same rest
  end.

Definition sameMember (a b : OrganizationMembership.t) : bool :=
  membershipKey (OrganizationMembership.orgId a)
    (OrganizationMembership.userId a) b.


(** At most one membership per [(orgId, userId)]. *)
Definition uniqueMemberships (w : World) : bool :=
  distinctBy sameMember (organizationMemberships w).


(** [pm] points to the membership [om] of the same user. *)
Definition backs (pm : ProjectMembership.t) (om : OrganizationMembership.t)
  : bool :=
  String.eqb (OrganizationMembership.id om)
    (ProjectMembership.orgMembershipId pm)
  && String.eqb (OrganizationMembership.userId om)
       (ProjectMembership.userId pm).

(** Every project membership points to a stored organization membership of
    its user. *)
Definition projectMembershipsBacked (w : World) : bool :=
  forallb (fun pm => existsb (backs pm) (organizationMemberships w))
    (projectMemberships w).

(** Every membership of the organization has its user. *)
Definition membersHaveUsers (orgId : string) (w : World) : bool :=
  forallb
    (fun m => isSome (userById (OrganizationMembership.userId m) w))
    (membershipsOfOrg orgId w).

(** The tables, without the log of calls. *)
Definition sameTables (a b : World) : Prop :=
  users a = users b /\ organizations a = organizations b
  /\ projects a = projects b
  /\ organizationMemberships a = organizationMemberships b
  /\ projectMemberships a = projectMemberships b
  /\ membershipInvitations a = membershipInvitations b
  /\ auditLogs a = auditLogs b /\ outbox a = outbox b
  /\ nextId a = nextId b /\ env a = env b.

Module Sample2.
(** [Sample.world] after the existing user was made an ADMIN with MEMBER on
    [proj_1], and with an SMTP sender configured. *)
Definition member : OrganizationMembership.t :=
  OrganizationMembership.mk "m1" "org_1" "u1" ADMIN.

Definition world : World :=
  mkWorld (users Sample.world) (organizations Sample.world)
    (projects Sample.world) [member]
    [ProjectMembership.mk "u1" "proj_1" MEMBER "m1"] [] [] [] [] 5
    (Env.mk (Some "admin@acme.io")).

(** Sample bodies: what each of the two schemas makes of the body. *)
Definition Body : Type :=
  (SafeParse Membership.t * SafeParse DeleteMembership.t)%type.

Definition asMembership (b : Body) : SafeParse Membership.t := fst b.

Definition asDelete (b : Body) : SafeParse DeleteMembership.t := snd b.

Definition auth (req : Request Body) : AdminAuth :=
  match organizationId req with
  | "locked" => Denied (respond 401 (ErrorJson "Unauthorized"))
  | _ => Authorized
  end.

Definition put : Request Body :=
  mkRequest (Some "PUT") "org_1"
    (ParseSuccess Sample.update, ParseFailure ["userId"]).

Definition post : Request Body :=
  mkRequest (Some "POST") "org_1"
    (ParseSuccess Sample.update, ParseFailure ["userId"]).

(** An existing user, with a role on the soft-deleted project. *)
Definition addToDeleted : CreateMembership.t :=
  CreateMembership.mk "existing@x.com" ADMIN (Some "proj_old") (Some MEMBER).

Definition remove : DeleteMembership.t := DeleteMembership.mk "u1".

Definition locked : Request Body :=
  mkRequest (Some "DELETE") "locked"
    (ParseFailure ["userId"],
     ParseSuccess (DeleteMembership.mk "u1")).
End Sample2.

(* ================================================================== *)
(** * Properties *)

(** ** Equality tests and JavaScript helpers *)

Lemma Role_eqb_refl (r : Role) : Role_eqb r r = true.
Proof. destruct r; reflexivity. Qed.

Lemma optEqb_refl {A : Type} (eqb : A -> A -> bool) (x : option A) :
  (forall a, eqb a a = true) -> optEqb eqb x x = true.
Proof. intros H; destruct x; cbn; auto. Qed.

Lemma Snapshot_eqb_refl (s : Snapshot) : Snapshot_eqb s s = true.
Proof.
  destruct s as [m|m|i]; cbn.
  - unfold OrganizationMembership.eqb.
    now rewrite !String.eqb_refl, Role_eqb_refl.
  - unfold ProjectMembership.eqb.
    now rewrite !String.eqb_refl, Role_eqb_refl.
  - unfold MembershipInvitation.eqb.
    rewrite !String.eqb_refl, Role_eqb_refl.
    rewrite !optEqb_refl; auto using String.eqb_refl, Role_eqb_refl.
Qed.

Lemma lowerAscii_idempotent (c : ascii) :
  lowerAscii (lowerAscii c) = lowerAscii c.
Proof.
  destruct c as [[] [] [] [] [] [] [] []]; vm_compute; reflexivity.
Qed.

Lemma toLowerCase_idempotent (s : string) :
  toLowerCase (toLowerCase s) = toLowerCase s.
Proof.
  induction s as [|c s IH]; cbn; [reflexivity|].
  now rewrite lowerAscii_idempotent, IH.
Qed.

Lemma grantedProjectRole_spec
    (project : option Project.t) (projectRole : option Role)
    (p : Project.t) (r : Role) :
  grantedProjectRole project projectRole = Some (p, r)
  <-> project = Some p /\ projectRole = Some r /\ r <> NONE.
Proof.
  unfold grantedProjectRole. split.
  - intros H. destruct project as [p'|], projectRole as [r'|];
      try discriminate.
    destruct r'; cbn in H; try discriminate;
      injection H as -> <-; repeat split; discriminate.
  - intros (-> & -> & Hn). destruct r; cbn; congruence.
Qed.

(** The project the handler works with is a live project of the
    organization, stored under the non-empty [projectId] of the request. *)
Lemma resolvedProject_spec
    (d : CreateMembership.t) (orgId : string) (w : World) (p : Project.t) :
  resolvedProject d orgId w = Some p ->
  In p (projects w)
  /\ CreateMembership.projectId d = Some (Project.id p)
  /\ truthy (Project.id p) = true
  /\ Project.orgId p = orgId
  /\ Project.deletedAt p = None.
Proof.
  unfold resolvedProject, projectIn.
  destruct (CreateMembership.projectId d) as [pid|]; [|discriminate].
  destruct (truthy pid) eqn:Ht; [|discriminate].
  intros H. apply find_some in H. destruct H as [Hin Hp].
  unfold liveProject in Hp.
  apply andb_true_iff in Hp. destruct Hp as [Hp Hdel].
  apply andb_true_iff in Hp. destruct Hp as [Hid Horg].
  apply String.eqb_eq in Hid, Horg. subst pid.
  repeat split; auto.
  destruct (Project.deletedAt p); [discriminate | reflexivity].
Qed.

(** ** Worlds *)

Lemma world_ext (a b : World) :
  users a = users b -> organizations a = organizations b ->
  projects a = projects b ->
  organizationMemberships a = organizationMemberships b ->
  projectMemberships a = projectMemberships b ->
  membershipInvitations a = membershipInvitations b ->
  auditLogs a = auditLogs b -> outbox a = outbox b -> calls a = calls b ->
  nextId a = nextId b -> env a = env b -> a = b.
Proof. destruct a, b; cbn; intros; subst; reflexivity. Qed.

Ltac splits := repeat match goal with |- _ /\ _ => split end.

Ltac world_eq :=
  apply world_ext; cbn; rewrite ?app_nil_r, <- ?app_assoc; reflexivity.

Ltac unfold_prog :=
  unfold prisma_user_findUnique_email, prisma_user_findUnique_id,
    prisma_organization_findUnique, prisma_project_findFirst,
    prisma_organizationMembership_findFirst,
    prisma_membershipInvitation_findFirst,
    prisma_organizationMembership_create, prisma_projectMembership_create,
    prisma_membershipInvitation_create, auditLog,
    sendMembershipInvitationEmail, getEnv, query, bind, ret.

Lemma added_app {A : Type} (l new : list A) : added l (l ++ new) = new.
Proof.
  unfold added. induction l as [|x l IH]; cbn; [reflexivity | exact IH].
Qed.

Lemma added_nil {A : Type} (l : list A) : added l l = [].
Proof. rewrite <- (app_nil_r l) at 2. apply added_app. Qed.

(** ** What a run of [handleCreateMembership] does, branch by branch *)

Lemma existingUserBranch_run
    (d : CreateMembership.t) (orgId : string) (u : User.t)
    (org : Organization.t) (project : option Project.t) (w : World) :
  existingUserBranch d orgId u org project w =
  match membershipOf orgId (User.id u) w with
  | Some _ =>
      (respond 409 (ErrorJson "User is already a member of this organization"),
       logCalls [OrganizationMembershipFindFirst orgId (User.id u)] w)
  | None =>
      let om := newOrgMembership d orgId u w in
      let pms :=
        optList (newProjectMembership u om)
          (grantedProjectRole project (CreateMembership.projectRole d)) in
      let mail := invitationEmail d orgId org true w in
      (respond 200
         (MembershipJson (User.id u) (CreateMembership.role d) (User.email u)
            (User.name u)),
       extend [om] pms []
         (orgMembershipAudit d orgId om
          :: map (projectMembershipAudit d orgId) pms)
         [mail]
         ([OrganizationMembershipFindFirst orgId (User.id u);
           OrganizationMembershipCreate om;
           AuditLogCall (orgMembershipAudit d orgId om)]
          ++ flat_map
               (fun pm =>
                  [ProjectMembershipCreate pm;
                   AuditLogCall (projectMembershipAudit d orgId pm)])
               pms
          ++ [SendMembershipInvitationEmail mail])
         1 w)
  end.
Proof.
  unfold existingUserBranch. unfold_prog.
  destruct (membershipOf orgId (User.id u) w) as [m|].
  - reflexivity.
  - destruct project as [p|], (CreateMembership.projectRole d) as [r|];
      try destruct r; cbn;
      (apply f_equal2; [reflexivity | world_eq]).
Qed.

Lemma newUserBranch_run
    (d : CreateMembership.t) (orgId : string)
    (org : Organization.t) (project : option Project.t) (w : World) :
  newUserBranch d orgId org project w =
  match invitationFor (toLowerCase (CreateMembership.email d)) orgId w with
  | Some _ =>
      (respond 409 (ErrorJson "Invitation already exists for this email"),
       logCalls
         [MembershipInvitationFindFirst
            (toLowerCase (CreateMembership.email d)) orgId] w)
  | None =>
      let invitation := newInvitation d orgId project w in
      let mail := invitationEmail d orgId org false w in
      (respond 200
         (InvitationJson (MembershipInvitation.id invitation)
            (CreateMembership.email d) (CreateMembership.role d) "PENDING"),
       extend [] [] [invitation] [invitationAudit d orgId invitation] [mail]
         [MembershipInvitationFindFirst
            (toLowerCase (CreateMembership.email d)) orgId;
          MembershipInvitationCreate invitation;
          AuditLogCall (invitationAudit d orgId invitation);
          SendMembershipInvitationEmail mail]
         1 w)
  end.
Proof.
  unfold newUserBranch. unfold_prog.
  destruct (invitationFor (toLowerCase (CreateMembership.email d)) orgId w)
    as [i|].
  - reflexivity.
  - cbv zeta. unfold newInvitation.
    destruct project as [p|], (CreateMembership.projectRole d) as [r|];
      try destruct r; cbn;
      (apply f_equal2; [reflexivity | world_eq]).
Qed.

Lemma handleCreateMembership_run
    (d : CreateMembership.t) (orgId : string) (w : World) :
  handleCreateMembership (ParseSuccess d) orgId w =
  match organizationById orgId w with
  | None =>
      (respond 404 (ErrorJson "Organization not found"),
       logCalls
         [UserFindUniqueByEmail (toLowerCase (CreateMembership.email d));
          OrganizationFindUnique orgId] w)
  | Some org =>
      let w1 := logCalls (preambleCalls d orgId) w in
      if projectFound d orgId w then
        match userByEmail (toLowerCase (CreateMembership.email d)) w with
        | Some user =>
            existingUserBranch d orgId user org (resolvedProject d orgId w) w1
        | None => newUserBranch d orgId org (resolvedProject d orgId w) w1
        end
      else
        (respond 404 (ErrorJson "Project not found in this organization"), w1)
  end.
Proof.
  unfold handleCreateMembership, projectFound, resolvedProject, preambleCalls.
  unfold_prog.
  change (organizationById orgId
            (logCall (UserFindUniqueByEmail
                        (toLowerCase (CreateMembership.email d))) w))
    with (organizationById orgId w).
  destruct (organizationById orgId w) as [org|].
  2: { apply f_equal2; [reflexivity | world_eq]. }
  destruct (CreateMembership.projectId d) as [pid|]; cbv zeta;
    [destruct (truthy pid) eqn:Ht|];
    cbn [truthyOpt isSome negb andb]; rewrite ?Ht;
    cbn [truthyOpt isSome negb andb].
  - change (projectIn pid orgId
              (logCall (OrganizationFindUnique orgId)
                 (logCall (UserFindUniqueByEmail
                             (toLowerCase (CreateMembership.email d))) w)))
      with (projectIn pid orgId w).
    destruct (projectIn pid orgId w) as [p|];
      cbn [truthyOpt isSome negb andb].
    + destruct (userByEmail (toLowerCase (CreateMembership.email d)) w);
        f_equal; world_eq.
    + apply f_equal2; [reflexivity | world_eq].
  - destruct (userByEmail (toLowerCase (CreateMembership.email d)) w);
      f_equal; world_eq.
  - destruct (userByEmail (toLowerCase (CreateMembership.email d)) w);
      f_equal; world_eq.
Qed.

Lemma describes_refl_create (e : AuditLog.t) :
  AuditLog.action e = "create" -> describes e (AuditLog.after e) = true.
Proof.
  intros H. unfold describes. now rewrite Snapshot_eqb_refl, H.
Qed.

(** Rewrites a run on a request that passes the guards of lines 87-108. *)
Ltac run_create Ho Hp :=
  rewrite handleCreateMembership_run, Ho; cbv zeta; rewrite Hp.

(** ** The existing-user branch *)

(** C1. A request whose email matches an existing user without a membership
    in the organization creates exactly one OrganizationMembership with the
    requested role, records exactly one audit entry for it, sends exactly
    one notification with [userExists = true], creates no ProjectMembership
    when no valid project with a non-NONE project role was supplied, and
    answers [(userId, role, email, name)]. *)
Theorem createMembership_existing_user
    (d : CreateMembership.t) (orgId : string) (w : World)
    (org : Organization.t) (u : User.t) :
  organizationById orgId w = Some org ->
  projectFound d orgId w = true ->
  userByEmail (toLowerCase (CreateMembership.email d)) w = Some u ->
  membershipOf orgId (User.id u) w = None ->
  let '(r, w') := handleCreateMembership (ParseSuccess d) orgId w in
  let om := newOrgMembership d orgId u w in
  r = respond 200
        (MembershipJson (User.id u) (CreateMembership.role d) (User.email u)
           (User.name u))
  /\ organizationMemberships w' = organizationMemberships w ++ [om]
  /\ OrganizationMembership.role om = CreateMembership.role d
  /\ filter (fun e => describes e (OrgMembershipRow om)) (newAudits w w')
     = [orgMembershipAudit d orgId om]
  /\ (exists mail,
        outbox w' = outbox w ++ [mail]
        /\ InvitationEmail.userExists mail = true
        /\ InvitationEmail.to mail = CreateMembership.email d)
  /\ (grantedProjectRole (resolvedProject d orgId w)
        (CreateMembership.projectRole d) = None ->
      projectMemberships w' = projectMemberships w)
  /\ membershipInvitations w' = membershipInvitations w.
Proof.
  intros Ho Hp Hu Hm.
  run_create Ho Hp. rewrite Hu, existingUserBranch_run.
  change (membershipOf orgId (User.id u) (logCalls (preambleCalls d orgId) w))
    with (membershipOf orgId (User.id u) w).
  rewrite Hm. cbv zeta.
  unfold newAudits. cbn [auditLogs extend logCalls organizationMemberships
    outbox projectMemberships membershipInvitations].
  rewrite added_app.
  repeat split.
  - cbn [filter]. rewrite describes_refl_create by reflexivity.
    f_equal.
    destruct (grantedProjectRole (resolvedProject d orgId w)
                (CreateMembership.projectRole d)); reflexivity.
  - eexists; repeat split.
  - intros ->. cbn. apply app_nil_r.
  - apply app_nil_r.
Qed.

(** C2. A request whose email matches no user and for which no invitation
    exists for [(orgId, email)] creates exactly one MembershipInvitation,
    records exactly one audit entry, sends exactly one notification with
    [userExists = false], and answers
    [(invitationId, email, role, status = PENDING)]. *)
Theorem createMembership_new_user
    (d : CreateMembership.t) (orgId : string) (w : World)
    (org : Organization.t) :
  organizationById orgId w = Some org ->
  projectFound d orgId w = true ->
  userByEmail (toLowerCase (CreateMembership.email d)) w = None ->
  invitationFor (toLowerCase (CreateMembership.email d)) orgId w = None ->
  let '(r, w') := handleCreateMembership (ParseSuccess d) orgId w in
  let invitation := newInvitation d orgId (resolvedProject d orgId w) w in
  r = respond 200
        (InvitationJson (MembershipInvitation.id invitation)
           (CreateMembership.email d) (CreateMembership.role d) "PENDING")
  /\ membershipInvitations w' = membershipInvitations w ++ [invitation]
  /\ MembershipInvitation.orgId invitation = orgId
  /\ MembershipInvitation.email invitation
     = toLowerCase (CreateMembership.email d)
  /\ MembershipInvitation.orgRole invitation = CreateMembership.role d
  /\ newAudits w w' = [invitationAudit d orgId invitation]
  /\ (exists mail,
        outbox w' = outbox w ++ [mail]
        /\ InvitationEmail.userExists mail = false
        /\ InvitationEmail.to mail = CreateMembership.email d)
  /\ organizationMemberships w' = organizationMemberships w
  /\ projectMemberships w' = projectMemberships w.
Proof.
  intros Ho Hp Hu Hi.
  run_create Ho Hp. rewrite Hu, newUserBranch_run.
  change (invitationFor (toLowerCase (CreateMembership.email d)) orgId
            (logCalls (preambleCalls d orgId) w))
    with (invitationFor (toLowerCase (CreateMembership.email d)) orgId w).
  rewrite Hi. cbv zeta.
  unfold newAudits. cbn [auditLogs extend logCalls organizationMemberships
    outbox projectMemberships membershipInvitations].
  rewrite added_app.
  repeat split; try apply app_nil_r.
  eexists; repeat split.
Qed.

(** ** Conflicts *)

Lemma find_app {A : Type} (p : A -> bool) (l l' : list A) :
  find p (l ++ l') =
  match find p l with
  | Some x => Some x
  | None => find p l'
  end.
Proof.
  induction l as [|x l IH]; cbn; [reflexivity|].
  destruct (p x); [reflexivity | exact IH].
Qed.

(** The calls of a run are appended to the log of calls. *)
Lemma logCalls_calls (cs : list Call) (w : World) :
  newCalls w (logCalls cs w) = cs.
Proof. unfold newCalls. cbn. apply added_app. Qed.

Lemma logCalls_logCalls (cs cs' : list Call) (w : World) :
  logCalls cs' (logCalls cs w) = logCalls (cs ++ cs') w.
Proof. world_eq. Qed.

(** A user who is already a member is turned away before any write. *)
Lemma createMembership_already_member
    (d : CreateMembership.t) (orgId : string) (w : World)
    (org : Organization.t) (u : User.t) (m : OrganizationMembership.t) :
  organizationById orgId w = Some org ->
  projectFound d orgId w = true ->
  userByEmail (toLowerCase (CreateMembership.email d)) w = Some u ->
  membershipOf orgId (User.id u) w = Some m ->
  handleCreateMembership (ParseSuccess d) orgId w =
  (respond 409 (ErrorJson "User is already a member of this organization"),
   logCalls
     (preambleCalls d orgId
      ++ [OrganizationMembershipFindFirst orgId (User.id u)]) w).
Proof.
  intros Ho Hp Hu Hm.
  run_create Ho Hp. rewrite Hu, existingUserBranch_run.
  change (membershipOf orgId (User.id u) (logCalls (preambleCalls d orgId) w))
    with (membershipOf orgId (User.id u) w).
  rewrite Hm. now rewrite logCalls_logCalls.
Qed.

(** An email with a pending invitation and no account is turned away before
    any write. *)
Lemma createMembership_already_invited
    (d : CreateMembership.t) (orgId : string) (w : World)
    (org : Organization.t) (i : MembershipInvitation.t) :
  organizationById orgId w = Some org ->
  projectFound d orgId w = true ->
  userByEmail (toLowerCase (CreateMembership.email d)) w = None ->
  invitationFor (toLowerCase (CreateMembership.email d)) orgId w = Some i ->
  handleCreateMembership (ParseSuccess d) orgId w =
  (respond 409 (ErrorJson "Invitation already exists for this email"),
   logCalls
     (preambleCalls d orgId
      ++ [MembershipInvitationFindFirst
            (toLowerCase (CreateMembership.email d)) orgId]) w).
Proof.
  intros Ho Hp Hu Hi.
  run_create Ho Hp. rewrite Hu, newUserBranch_run.
  change (invitationFor (toLowerCase (CreateMembership.email d)) orgId
            (logCalls (preambleCalls d orgId) w))
    with (invitationFor (toLowerCase (CreateMembership.email d)) orgId w).
  rewrite Hi. now rewrite logCalls_logCalls.
Qed.

Lemma preambleCalls_reads (d : CreateMembership.t) (orgId : string) :
  forallb isRead (preambleCalls d orgId) = true.
Proof.
  unfold preambleCalls.
  destruct (CreateMembership.projectId d) as [pid|];
    [destruct (truthy pid)|]; reflexivity.
Qed.

Lemma membershipKey_new
    (d : CreateMembership.t) (orgId : string) (u : User.t) (w : World) :
  membershipKey orgId (User.id u) (newOrgMembership d orgId u w) = true.
Proof. unfold membershipKey. cbn. now rewrite !String.eqb_refl. Qed.

(** C3. A user who is already a member of the organization is answered the
    already-a-member conflict: the call writes nothing, records no audit
    entry, sends no email and leaves the stored membership as it is.  For a
    user who is not yet a member the first call succeeds and a second call
    for the same [(orgId, email)] meets that conflict, the role staying the
    one the first call set. *)
Theorem createMembership_member_conflict
    (d d2 : CreateMembership.t) (orgId : string) (w : World)
    (org : Organization.t) (u : User.t) :
  organizationById orgId w = Some org ->
  projectFound d orgId w = true ->
  userByEmail (toLowerCase (CreateMembership.email d)) w = Some u ->
  toLowerCase (CreateMembership.email d2)
  = toLowerCase (CreateMembership.email d) ->
  projectFound d2 orgId w = true ->
  (forall m,
      membershipOf orgId (User.id u) w = Some m ->
      let '(r, w') := handleCreateMembership (ParseSuccess d) orgId w in
      r = respond 409
            (ErrorJson "User is already a member of this organization")
      /\ w' = logCalls (newCalls w w') w
      /\ forallb isRead (newCalls w w') = true
      /\ membershipOf orgId (User.id u) w' = Some m)
  /\ (membershipOf orgId (User.id u) w = None ->
      let '(r1, w1) := handleCreateMembership (ParseSuccess d) orgId w in
      let '(r2, w2) := handleCreateMembership (ParseSuccess d2) orgId w1 in
      status r1 = 200
      /\ r2 = respond 409
                (ErrorJson "User is already a member of this organization")
      /\ w2 = logCalls (newCalls w1 w2) w1
      /\ forallb isRead (newCalls w1 w2) = true
      /\ organizationMemberships w2 = organizationMemberships w1
      /\ auditLogs w2 = auditLogs w1
      /\ outbox w2 = outbox w1
      /\ membershipOf orgId (User.id u) w1
         = Some (newOrgMembership d orgId u w)
      /\ membershipOf orgId (User.id u) w2
         = Some (newOrgMembership d orgId u w)
      /\ OrganizationMembership.role (newOrgMembership d orgId u w)
         = CreateMembership.role d).
Proof.
  intros Ho Hp Hu He Hp2. split.
  - intros m Hm.
    rewrite (createMembership_already_member d orgId w org u m Ho Hp Hu Hm).
    rewrite logCalls_calls. splits; try reflexivity; [|exact Hm].
    rewrite forallb_app, preambleCalls_reads. reflexivity.
  - intros Hm.
    run_create Ho Hp. rewrite Hu, existingUserBranch_run.
    change (membershipOf orgId (User.id u)
              (logCalls (preambleCalls d orgId) w))
      with (membershipOf orgId (User.id u) w).
    rewrite Hm. cbv beta iota zeta.
    match goal with
    | |- context [handleCreateMembership (ParseSuccess d2) orgId ?W] =>
        set (w1 := W)
    end.
    assert (Hm1 : membershipOf orgId (User.id u) w1
                  = Some (newOrgMembership d orgId u w)).
    { unfold membershipOf, w1.
      cbn [organizationMemberships extend logCalls].
      rewrite find_app. fold (membershipOf orgId (User.id u) w). rewrite Hm.
      cbn [find]. now rewrite membershipKey_new. }
    rewrite (createMembership_already_member d2 orgId w1 org u
               (newOrgMembership d orgId u w));
      [ | exact Ho | exact Hp2 | rewrite He; exact Hu | exact Hm1 ].
    rewrite logCalls_calls.
    splits; try reflexivity; try exact Hm1.
    rewrite forallb_app, preambleCalls_reads. reflexivity.
Qed.

(** ** The decision table of [handleCreateMembership]

    The response and the final world of every run on a parsed body, as a
    function of the lookups in the initial world. *)

Lemma extend_logCalls
    (oms : list OrganizationMembership.t) (pms : list ProjectMembership.t)
    (invs : list MembershipInvitation.t) (audits : list AuditLog.t)
    (mails : list InvitationEmail.t) (cs0 cs : list Call) (ids : nat)
    (w : World) :
  extend oms pms invs audits mails cs ids (logCalls cs0 w)
  = extend oms pms invs audits mails (cs0 ++ cs) ids w.
Proof. world_eq. Qed.

Lemma handleCreateMembership_cases
    (d : CreateMembership.t) (orgId : string) (w : World) :
  handleCreateMembership (ParseSuccess d) orgId w =
  match organizationById orgId w with
  | None =>
      (respond 404 (ErrorJson "Organization not found"),
       logCalls
         [UserFindUniqueByEmail (toLowerCase (CreateMembership.email d));
          OrganizationFindUnique orgId] w)
  | Some org =>
      if projectFound d orgId w then
        match userByEmail (toLowerCase (CreateMembership.email d)) w with
        | Some u =>
            match membershipOf orgId (User.id u) w with
            | Some _ =>
                (respond 409
                   (ErrorJson "User is already a member of this organization"),
                 logCalls
                   (preambleCalls d orgId
                    ++ [OrganizationMembershipFindFirst orgId (User.id u)]) w)
            | None =>
                let om := newOrgMembership d orgId u w in
                let pms :=
                  optList (newProjectMembership u om)
                    (grantedProjectRole (resolvedProject d orgId w)
                       (CreateMembership.projectRole d)) in
                let mail := invitationEmail d orgId org true w in
                (respond 200
                   (MembershipJson (User.id u) (CreateMembership.role d)
                      (User.email u) (User.name u)),
                 extend [om] pms []
                   (orgMembershipAudit d orgId om
                    :: map (projectMembershipAudit d orgId) pms)
                   [mail]
                   (preambleCalls d orgId
                    ++ [OrganizationMembershipFindFirst orgId (User.id u);
                        OrganizationMembershipCreate om;
                        AuditLogCall (orgMembershipAudit d orgId om)]
                    ++ flat_map
                         (fun pm =>
                            [ProjectMembershipCreate pm;
                             AuditLogCall (projectMembershipAudit d orgId pm)])
                         pms
                    ++ [SendMembershipInvitationEmail mail])
                   1 w)
            end
        | None =>
            match
              invitationFor (toLowerCase (CreateMembership.email d)) orgId w
            with
            | Some _ =>
                (respond 409
                   (ErrorJson "Invitation already exists for this email"),
                 logCalls
                   (preambleCalls d orgId
                    ++ [MembershipInvitationFindFirst
                          (toLowerCase (CreateMembership.email d)) orgId]) w)
            | None =>
                let invitation :=
                  newInvitation d orgId (resolvedProject d orgId w) w in
                let mail := invitationEmail d orgId org false w in
                (respond 200
                   (InvitationJson (MembershipInvitation.id invitation)
                      (CreateMembership.email d) (CreateMembership.role d)
                      "PENDING"),
                 extend [] [] [invitation]
                   [invitationAudit d orgId invitation] [mail]
                   (preambleCalls d orgId
                    ++ [MembershipInvitationFindFirst
                          (toLowerCase (CreateMembership.email d)) orgId;
                        MembershipInvitationCreate invitation;
                        AuditLogCall (invitationAudit d orgId invitation);
                        SendMembershipInvitationEmail mail])
                   1 w)
            end
        end
      else
        (respond 404 (ErrorJson "Project not found in this organization"),
         logCalls (preambleCalls d orgId) w)
  end.
Proof.
  rewrite handleCreateMembership_run.
  destruct (organizationById orgId w) as [org|]; [|reflexivity].
  cbv zeta. destruct (projectFound d orgId w); [|reflexivity].
  destruct (userByEmail (toLowerCase (CreateMembership.email d)) w) as [u|].
  - rewrite existingUserBranch_run.
    change (membershipOf orgId (User.id u)
              (logCalls (preambleCalls d orgId) w))
      with (membershipOf orgId (User.id u) w).
    destruct (membershipOf orgId (User.id u) w).
    + now rewrite logCalls_logCalls.
    + cbv zeta. now rewrite extend_logCalls.
  - rewrite newUserBranch_run.
    change (invitationFor (toLowerCase (CreateMembership.email d)) orgId
              (logCalls (preambleCalls d orgId) w))
      with (invitationFor (toLowerCase (CreateMembership.email d)) orgId w).
    destruct (invitationFor (toLowerCase (CreateMembership.email d)) orgId w).
    + now rewrite logCalls_logCalls.
    + cbv zeta. now rewrite extend_logCalls.
Qed.

(** Splits a goal about a run into the six rows of the table. *)
Ltac create_cases d orgId w :=
  rewrite (handleCreateMembership_cases d orgId w);
  let org := fresh "org" in
  let u := fresh "u" in
  let Ho := fresh "Ho" in
  let Hp := fresh "Hp" in
  let Hu := fresh "Hu" in
  let Hm := fresh "Hm" in
  let Hi := fresh "Hi" in
  destruct (organizationById orgId w) as [org|] eqn:Ho;
  [ destruct (projectFound d orgId w) eqn:Hp;
    [ destruct (userByEmail (toLowerCase (CreateMembership.email d)) w)
        as [u|] eqn:Hu;
      [ destruct (membershipOf orgId (User.id u) w) eqn:Hm
      | destruct (invitationFor (toLowerCase (CreateMembership.email d))
                    orgId w) eqn:Hi ]
    | ]
  | ];
  cbv beta iota zeta.

Lemma extend_calls
    (oms : list OrganizationMembership.t) (pms : list ProjectMembership.t)
    (invs : list MembershipInvitation.t) (audits : list AuditLog.t)
    (mails : list InvitationEmail.t) (cs : list Call) (ids : nat)
    (w : World) :
  newCalls w (extend oms pms invs audits mails cs ids w) = cs.
Proof. unfold newCalls. cbn. apply added_app. Qed.

Lemma extend_audits
    (oms : list OrganizationMembership.t) (pms : list ProjectMembership.t)
    (invs : list MembershipInvitation.t) (audits : list AuditLog.t)
    (mails : list InvitationEmail.t) (cs : list Call) (ids : nat)
    (w : World) :
  newAudits w (extend oms pms invs audits mails cs ids w) = audits.
Proof. unfold newAudits. cbn. apply added_app. Qed.

Lemma logCalls_audits (cs : list Call) (w : World) :
  newAudits w (logCalls cs w) = [].
Proof. unfold newAudits. cbn. apply added_nil. Qed.

(** C4. For an email without an account and without an invitation, two calls
    in a row answer PENDING and then the invitation-exists conflict; the
    second call adds no invitation row, writes nothing and sends no email.
    The conflict is answered exactly when an invitation for
    [(orgId, email)] is stored. *)
Theorem createMembership_invitation_conflict
    (d d2 : CreateMembership.t) (orgId : string) (w : World)
    (org : Organization.t) :
  organizationById orgId w = Some org ->
  projectFound d orgId w = true ->
  userByEmail (toLowerCase (CreateMembership.email d)) w = None ->
  invitationFor (toLowerCase (CreateMembership.email d)) orgId w = None ->
  toLowerCase (CreateMembership.email d2)
  = toLowerCase (CreateMembership.email d) ->
  projectFound d2 orgId w = true ->
  let '(r1, w1) := handleCreateMembership (ParseSuccess d) orgId w in
  let '(r2, w2) := handleCreateMembership (ParseSuccess d2) orgId w1 in
  let invitation := newInvitation d orgId (resolvedProject d orgId w) w in
  r1 = respond 200
         (InvitationJson (MembershipInvitation.id invitation)
            (CreateMembership.email d) (CreateMembership.role d) "PENDING")
  /\ r2 = respond 409 (ErrorJson "Invitation already exists for this email")
  /\ membershipInvitations w1 = membershipInvitations w ++ [invitation]
  /\ membershipInvitations w2 = membershipInvitations w1
  /\ w2 = logCalls (newCalls w1 w2) w1
  /\ forallb isRead (newCalls w1 w2) = true
  /\ outbox w2 = outbox w1
  /\ invitationFor (toLowerCase (CreateMembership.email d2)) orgId w1
     = Some invitation
  /\ (forall (d0 : CreateMembership.t) (w0 : World) (org0 : Organization.t)
        (Ho0 : organizationById orgId w0 = Some org0)
        (Hp0 : projectFound d0 orgId w0 = true)
        (Hu0 : userByEmail (toLowerCase (CreateMembership.email d0)) w0
               = None),
        (fst (handleCreateMembership (ParseSuccess d0) orgId w0)
         = respond 409 (ErrorJson "Invitation already exists for this email")
         <-> invitationFor (toLowerCase (CreateMembership.email d0)) orgId w0
             <> None)).
Proof.
  intros Ho Hp Hu Hi He Hp2.
  rewrite (handleCreateMembership_cases d orgId w), Ho, Hp, Hu, Hi.
  cbv beta iota zeta.
  match goal with
  | |- context [handleCreateMembership (ParseSuccess d2) orgId ?W] =>
      set (w1 := W)
  end.
  set (invitation := newInvitation d orgId (resolvedProject d orgId w) w).
  assert (Hi1 : invitationFor (toLowerCase (CreateMembership.email d2))
                  orgId w1 = Some invitation).
  { unfold invitationFor, w1.
    cbn [membershipInvitations extend]. rewrite find_app, He.
    fold (invitationFor (toLowerCase (CreateMembership.email d)) orgId w).
    rewrite Hi. cbn [find]. unfold invitationKey, invitation. cbn.
    now rewrite !String.eqb_refl. }
  rewrite (createMembership_already_invited d2 orgId w1 org invitation);
    [ | exact Ho | exact Hp2 | rewrite He; exact Hu | exact Hi1 ].
  rewrite logCalls_calls.
  repeat split; try reflexivity; try exact Hi1.
  - rewrite forallb_app, preambleCalls_reads. reflexivity.
  - rewrite (handleCreateMembership_cases d0 orgId w0), Ho0, Hp0, Hu0.
    destruct (invitationFor (toLowerCase (CreateMembership.email d0)) orgId w0);
      cbn; intros; discriminate.
  - rewrite (handleCreateMembership_cases d0 orgId w0), Ho0, Hp0, Hu0.
    destruct (invitationFor (toLowerCase (CreateMembership.email d0)) orgId w0);
      cbn; intros; congruence.
Qed.

(** ** Project roles *)

Lemma resolvedProject_complete
    (d : CreateMembership.t) (orgId : string) (w : World)
    (pid : string) (p : Project.t) :
  CreateMembership.projectId d = Some pid ->
  truthy pid = true ->
  In p (projects w) ->
  Project.id p = pid ->
  Project.orgId p = orgId ->
  Project.deletedAt p = None ->
  resolvedProject d orgId w <> None.
Proof.
  intros Hd Ht Hin Hid Horg Hdel. unfold resolvedProject, projectIn.
  rewrite Hd, Ht. intros Hnone.
  apply (find_none _ _ Hnone) in Hin.
  unfold liveProject in Hin.
  now rewrite Hid, Horg, Hdel, !String.eqb_refl in Hin.
Qed.

(** C5. Project-level role data is persisted exactly when the supplied
    [projectId] resolves to a live project of the organization and the
    supplied [projectRole] is not NONE.  In every run no ProjectMembership
    row is written otherwise; in a request that is served (status 200) the
    existing-user branch writes one ProjectMembership row exactly under that
    condition, and the new-user branch stores [projectId] and [projectRole]
    on the invitation exactly under that condition, both null otherwise. *)
Theorem createMembership_project_role
    (d : CreateMembership.t) (orgId : string) (w : World) :
  let '(r, w') := handleCreateMembership (ParseSuccess d) orgId w in
  let project := resolvedProject d orgId w in
  let granted := grantedProjectRole project (CreateMembership.projectRole d) in
  (forall p pr,
      granted = Some (p, pr)
      <-> project = Some p /\ CreateMembership.projectRole d = Some pr
          /\ pr <> NONE)
  /\ (forall p,
        project = Some p ->
        In p (projects w)
        /\ CreateMembership.projectId d = Some (Project.id p)
        /\ Project.orgId p = orgId /\ Project.deletedAt p = None)
  /\ (forall pid p,
        CreateMembership.projectId d = Some pid -> truthy pid = true ->
        In p (projects w) -> Project.id p = pid -> Project.orgId p = orgId ->
        Project.deletedAt p = None -> project <> None)
  /\ (granted = None -> projectMemberships w' = projectMemberships w)
  /\ (status r = 200 ->
      match userByEmail (toLowerCase (CreateMembership.email d)) w with
      | Some u =>
          projectMemberships w'
          = projectMemberships w
            ++ optList (newProjectMembership u (newOrgMembership d orgId u w))
                 granted
      | None =>
          projectMemberships w' = projectMemberships w
          /\ exists invitation,
               membershipInvitations w'
               = membershipInvitations w ++ [invitation]
               /\ MembershipInvitation.projectId invitation
                  = option_map (fun g => Project.id (fst g)) granted
               /\ MembershipInvitation.projectRole invitation
                  = option_map snd granted
      end).
Proof.
  assert (Hspec : forall p, resolvedProject d orgId w = Some p ->
            In p (projects w)
            /\ CreateMembership.projectId d = Some (Project.id p)
            /\ Project.orgId p = orgId /\ Project.deletedAt p = None).
  { intros p Hp. apply resolvedProject_spec in Hp. tauto. }
  create_cases d orgId w;
    (split; [intros p pr; apply grantedProjectRole_spec|]);
    (split; [exact Hspec|]);
    (split; [intros pid p; apply resolvedProject_complete|]);
    cbn [projectMemberships membershipInvitations extend logCalls status].
  - split; [reflexivity | discriminate].
  - split; [intros ->; apply app_nil_r | intros _; reflexivity].
  - split; [reflexivity | discriminate].
  - split; [intros _; apply app_nil_r|]. intros _.
    split; [apply app_nil_r|]. eexists. split; [reflexivity|].
    split; reflexivity.
  - split; [reflexivity | discriminate].
  - split; [reflexivity | discriminate].
Qed.

(** ** Order of the calls *)


Lemma auditedWrites_reads (pre cs : list Call) :
  forallb isRead pre = true ->
  auditedWrites (pre ++ cs) = auditedWrites cs.
Proof.
  induction pre as [|c pre IH]; cbn [app forallb]; [reflexivity|].
  intros H. apply andb_true_iff in H. destruct H as [Hc Hpre].
  cbn [auditedWrites]. rewrite (IH Hpre).
  destruct c; cbn in Hc; try discriminate; reflexivity.
Qed.

Lemma nothingAfterSend_reads (pre cs : list Call) :
  forallb isRead pre = true ->
  nothingAfterSend (pre ++ cs) = nothingAfterSend cs.
Proof.
  induction pre as [|c pre IH]; cbn [app forallb]; [reflexivity|].
  intros H. apply andb_true_iff in H. destruct H as [Hc Hpre].
  cbn [nothingAfterSend]. rewrite (IH Hpre).
  destruct c; cbn in Hc; try discriminate; reflexivity.
Qed.

Lemma sendNeedsWrite_reads (seen : bool) (pre cs : list Call) :
  forallb isRead pre = true ->
  sendNeedsWrite seen (pre ++ cs) = sendNeedsWrite seen cs.
Proof.
  revert seen.
  induction pre as [|c pre IH]; intros seen; cbn [app forallb];
    [reflexivity|].
  intros H. apply andb_true_iff in H. destruct H as [Hc Hpre].
  cbn [sendNeedsWrite].
  destruct c; cbn in Hc; try discriminate;
    cbn [isSend isWrite]; rewrite orb_false_r, (IH _ Hpre); reflexivity.
Qed.

Lemma auditedWrites_only_reads (cs : list Call) :
  forallb isRead cs = true -> auditedWrites cs = true.
Proof.
  intros H. rewrite <- (app_nil_r cs). now rewrite auditedWrites_reads.
Qed.

Lemma nothingAfterSend_only_reads (cs : list Call) :
  forallb isRead cs = true -> nothingAfterSend cs = true.
Proof.
  intros H. rewrite <- (app_nil_r cs). now rewrite nothingAfterSend_reads.
Qed.

Lemma sendNeedsWrite_only_reads (seen : bool) (cs : list Call) :
  forallb isRead cs = true -> sendNeedsWrite seen cs = true.
Proof.
  intros H. rewrite <- (app_nil_r cs). now rewrite sendNeedsWrite_reads.
Qed.

Lemma existsb_after {A : Type} (p : A -> bool) (pre l : list A) :
  existsb p l = true -> existsb p (pre ++ l) = true.
Proof. intros H. rewrite existsb_app, H. apply orb_true_r. Qed.

Lemma no_send_reads (pre : list Call) :
  forallb isRead pre = true ->
  forallb (fun c => negb (isSend c)) pre = true.
Proof.
  intros H. rewrite forallb_forall in *. intros c Hc.
  specialize (H c Hc). unfold isRead in H.
  destruct (isSend c); [|reflexivity].
  now rewrite orb_true_r in H.
Qed.

Arguments describes : simpl never.

(** C6. In every run of [handleCreateMembership] each write is followed at
    once by the audit entry that describes it, nothing is written or audited
    after a notification, and a notification is only sent after a write; a
    served request ends with its single notification, after all its writes
    and audit entries, and a rejected request makes reads only. *)
Theorem createMembership_ordering
    (d : CreateMembership.t) (orgId : string) (w : World) :
  let '(r, w') := handleCreateMembership (ParseSuccess d) orgId w in
  let cs := newCalls w w' in
  calls w' = calls w ++ cs
  /\ auditedWrites cs = true
  /\ nothingAfterSend cs = true
  /\ sendNeedsWrite false cs = true
  /\ (status r = 200 ->
      exists before mail,
        cs = before ++ [SendMembershipInvitationEmail mail]
        /\ existsb (correspondingWrite mail) before = true
        /\ forallb (fun c => negb (isSend c)) before = true)
  /\ (status r <> 200 -> forallb isRead cs = true).
Proof.
  pose proof (preambleCalls_reads d orgId) as Hpre.
  create_cases d orgId w;
    rewrite ?extend_calls, ?logCalls_calls;
    (split; [reflexivity|]).
  - (* already a member *)
    assert (Hr : forallb isRead
                   (preambleCalls d orgId
                    ++ [OrganizationMembershipFindFirst orgId (User.id u)])
                 = true)
      by (rewrite forallb_app, Hpre; reflexivity).
    rewrite auditedWrites_only_reads, nothingAfterSend_only_reads,
      sendNeedsWrite_only_reads by exact Hr.
    splits; try reflexivity; [discriminate | intros _; exact Hr].
  - (* membership created *)
    rewrite auditedWrites_reads, nothingAfterSend_reads,
      sendNeedsWrite_reads by exact Hpre.
    destruct (grantedProjectRole (resolvedProject d orgId w)
                (CreateMembership.projectRole d)) as [g|];
      cbn [optList flat_map map app auditedWrites nothingAfterSend
           sendNeedsWrite isWrite isSend isAudit createdRow forallb
           andb orb negb];
      rewrite ?describes_refl_create by reflexivity;
      (splits; try reflexivity;
       [ intros _ | intros H; exfalso; apply H; reflexivity ]).
    + eexists (preambleCalls d orgId ++ [_; _; _; _; _]), _.
      split; [now rewrite <- app_assoc|].
      split; [apply existsb_after; reflexivity|].
      rewrite forallb_app, (no_send_reads _ Hpre). reflexivity.
    + eexists (preambleCalls d orgId ++ [_; _; _]), _.
      split; [now rewrite <- app_assoc|].
      split; [apply existsb_after; reflexivity|].
      rewrite forallb_app, (no_send_reads _ Hpre). reflexivity.
  - (* already invited *)
    assert (Hr : forallb isRead
                   (preambleCalls d orgId
                    ++ [MembershipInvitationFindFirst
                          (toLowerCase (CreateMembership.email d)) orgId])
                 = true)
      by (rewrite forallb_app, Hpre; reflexivity).
    rewrite auditedWrites_only_reads, nothingAfterSend_only_reads,
      sendNeedsWrite_only_reads by exact Hr.
    splits; try reflexivity; [discriminate | intros _; exact Hr].
  - (* invitation created *)
    rewrite auditedWrites_reads, nothingAfterSend_reads,
      sendNeedsWrite_reads by exact Hpre.
    cbn [auditedWrites nothingAfterSend sendNeedsWrite isWrite isSend
         isAudit createdRow forallb andb orb negb].
    rewrite ?describes_refl_create by reflexivity.
    splits; try reflexivity;
      [ intros _ | intros H; exfalso; apply H; reflexivity ].
    eexists (preambleCalls d orgId ++ [_; _; _]), _.
    split; [now rewrite <- app_assoc|].
    split; [apply existsb_after; reflexivity|].
    rewrite forallb_app, (no_send_reads _ Hpre). reflexivity.
  - (* project not found *)
    rewrite auditedWrites_only_reads, nothingAfterSend_only_reads,
      sendNeedsWrite_only_reads by exact Hpre.
    splits; try reflexivity; [discriminate | intros _; exact Hpre].
  - (* organization not found *)
    splits; try reflexivity; discriminate.
Qed.

(** ** Audit entries *)

(** C10. Every audit entry a run of [handleCreateMembership] records names
    the actor ["API"] and carries the requested organization role; the entry
    of a ProjectMembership creation carries the organization role as well and
    identifies the row by the string [projectId--userId]. *)
Theorem createMembership_audit_entries
    (d : CreateMembership.t) (orgId : string) (w : World) :
  let '(r, w') := handleCreateMembership (ParseSuccess d) orgId w in
  let entries := newAudits w w' in
  auditLogs w' = auditLogs w ++ entries
  /\ (forall e,
        In e entries ->
        AuditLog.userId e = "API"
        /\ AuditLog.orgRole e = CreateMembership.role d
        /\ AuditLog.orgId e = orgId
        /\ AuditLog.action e = "create")
  /\ (forall e pm,
        In e entries ->
        AuditLog.after e = ProjectMembershipRow pm ->
        AuditLog.resourceType e = "projectMembership"
        /\ AuditLog.resourceId e
           = (ProjectMembership.projectId pm ++ "--"
              ++ ProjectMembership.userId pm)%string
        /\ AuditLog.orgRole e = CreateMembership.role d
        /\ CreateMembership.projectRole d
           = Some (ProjectMembership.role pm)
        /\ In pm (projectMemberships w'))
  /\ (forall e om,
        In e entries ->
        AuditLog.after e = OrgMembershipRow om ->
        AuditLog.resourceType e = "orgMembership"
        /\ AuditLog.resourceId e = OrganizationMembership.id om)
  /\ (forall e i,
        In e entries ->
        AuditLog.after e = InvitationRow i ->
        AuditLog.resourceType e = "membershipInvitation"
        /\ AuditLog.resourceId e = MembershipInvitation.id i).
Proof.
  create_cases d orgId w;
    rewrite ?extend_audits, ?logCalls_audits;
    cbn [auditLogs projectMemberships extend logCalls].
  1, 3, 5, 6:
    (splits; [now rewrite app_nil_r | | | | ]; intros; contradiction).
  - (* membership created *)
    destruct (grantedProjectRole (resolvedProject d orgId w)
                (CreateMembership.projectRole d)) as [[p pr]|] eqn:Hg;
      cbn [optList map]; (split; [reflexivity|]).
    + apply grantedProjectRole_spec in Hg. destruct Hg as (_ & Hpr & _).
      splits.
      * intros e [<-|[<-|[]]]; repeat split.
      * intros e pm [<-|[<-|[]]] Hafter; [discriminate|].
        injection Hafter as <-. cbn. repeat split; [exact Hpr|].
        apply in_or_app. right. now left.
      * intros e om [<-|[<-|[]]] Hafter; [|discriminate].
        injection Hafter as <-. split; reflexivity.
      * intros e i [<-|[<-|[]]] Hafter; discriminate.
    + splits.
      * intros e [<-|[]]; repeat split.
      * intros e pm [<-|[]] Hafter; discriminate.
      * intros e om [<-|[]] Hafter.
        injection Hafter as <-. split; reflexivity.
      * intros e i [<-|[]] Hafter; discriminate.
  - (* invitation created *)
    split; [reflexivity|]. splits.
    + intros e [<-|[]]; repeat split.
    + intros e pm [<-|[]] Hafter; discriminate.
    + intros e om [<-|[]] Hafter; discriminate.
    + intros e i [<-|[]] Hafter.
      injection Hafter as <-. split; reflexivity.
Qed.

(** ** Order of the lookups *)

(** The calls of an invitation, in the order they are awaited. *)
Example inviteNew_calls :
  newCalls Sample.world
    (snd (handleCreateMembership (ParseSuccess Sample.inviteNew) "org_1"
            Sample.world))
  = [UserFindUniqueByEmail "new@x.com";
     OrganizationFindUnique "org_1";
     MembershipInvitationFindFirst "new@x.com" "org_1";
     MembershipInvitationCreate
       (MembershipInvitation.mk (freshId 0) "org_1" None "new@x.com" MEMBER
          None None);
     AuditLogCall
       (AuditLog.mk "membershipInvitation" (freshId 0) "create" "org_1"
          MEMBER "API"
          (InvitationRow
             (MembershipInvitation.mk (freshId 0) "org_1" None "new@x.com"
                MEMBER None None)));
     SendMembershipInvitationEmail
       (InvitationEmail.mk "noreply@langfuse.com" "Organization Admin"
          "new@x.com" "Acme" "org_1" false (Env.mk None))].
Proof. reflexivity. Qed.

(** C7, as stated, fails: the user is looked up before the organization. *)
Lemma organizationLookupFirst_fails : ~ organizationLookupFirst.
Proof.
  intros H.
  specialize (H Sample.inviteNew "org_1" Sample.world).
  vm_compute in H. discriminate H.
Qed.

(** C7, amended.  Every run on a parsed body first looks the user up by the
    lower-cased email, then resolves the organization, answering
    NotFound(organization) when it is absent, then the project when a
    non-empty [projectId] was given; the user lookup precedes the
    organization lookup and no other call comes before them. *)
Theorem createMembership_lookup_order
    (d : CreateMembership.t) (orgId : string) (w : World) :
  let '(r, w') := handleCreateMembership (ParseSuccess d) orgId w in
  let cs := newCalls w w' in
  (exists rest,
      cs = UserFindUniqueByEmail (toLowerCase (CreateMembership.email d))
           :: OrganizationFindUnique orgId :: rest)
  /\ precedes isUserLookup isOrganizationLookup cs = true
  /\ precedes isOrganizationLookup isUserLookup cs = false
  /\ (organizationById orgId w = None ->
      r = respond 404 (ErrorJson "Organization not found")
      /\ cs = [UserFindUniqueByEmail (toLowerCase (CreateMembership.email d));
               OrganizationFindUnique orgId])
  /\ (forall pid,
        organizationById orgId w <> None ->
        CreateMembership.projectId d = Some pid ->
        truthy pid = true ->
        exists rest,
          cs = [UserFindUniqueByEmail (toLowerCase (CreateMembership.email d));
                OrganizationFindUnique orgId;
                ProjectFindFirst pid orgId] ++ rest)
  /\ (truthyOpt (CreateMembership.projectId d) = false ->
      existsb isProjectLookup cs = false).
Proof.
  assert (Hshape : forall rest0,
    let cs := preambleCalls d orgId ++ rest0 in
    existsb isProjectLookup rest0 = false ->
    (exists rest,
      cs = UserFindUniqueByEmail (toLowerCase (CreateMembership.email d))
           :: OrganizationFindUnique orgId :: rest)
    /\ precedes isUserLookup isOrganizationLookup cs = true
    /\ precedes isOrganizationLookup isUserLookup cs = false
    /\ (forall pid,
        CreateMembership.projectId d = Some pid ->
        truthy pid = true ->
        exists rest,
          cs = [UserFindUniqueByEmail (toLowerCase (CreateMembership.email d));
                OrganizationFindUnique orgId;
                ProjectFindFirst pid orgId] ++ rest)
    /\ (truthyOpt (CreateMembership.projectId d) = false ->
        existsb isProjectLookup cs = false)).
  { intros rest0 cs Hrest0. subst cs. unfold preambleCalls.
    cbn [app]. splits.
    - eexists. reflexivity.
    - reflexivity.
    - reflexivity.
    - intros pid -> ->. eexists. reflexivity.
    - intros Ht. cbn [existsb isProjectLookup orb].
      rewrite existsb_app, Hrest0, orb_false_r.
      destruct (CreateMembership.projectId d) as [pid|]; [|reflexivity].
      cbn in Ht. rewrite Ht. reflexivity. }
  create_cases d orgId w;
    rewrite ?extend_calls, ?logCalls_calls.
  1-4:
    match goal with
    | |- context [preambleCalls _ _ ++ ?rest0] =>
        destruct (Hshape rest0) as (H1 & H2 & H3 & H4 & H5)
    end.
  all: try (splits; try assumption;
            [ discriminate | intros pid _; apply H4 ]).
  all: try solve
    [ destruct (grantedProjectRole (resolvedProject d orgId w)
                  (CreateMembership.projectRole d)); reflexivity
    | reflexivity ].
  - (* project not found *)
    destruct (Hshape []) as (H1 & H2 & H3 & H4 & H5); [reflexivity|].
    rewrite app_nil_r in *.
    splits; try assumption; [ discriminate | intros pid _; apply H4 ].
  - (* organization not found *)
    splits; try reflexivity.
    + eexists. reflexivity.
    + intros _. split; reflexivity.
    + intros pid Hne. now contradiction Hne.
Qed.

(** ** Letter case of the email *)

(** Bob has an account, stored as [Bob@x.com]; a request for [bob@x.com]
    invites him as if he had none. *)
Example addBob_is_invited :
  toLowerCase (User.email Sample.bob) = toLowerCase "bob@x.com"
  /\ userByEmail (toLowerCase "bob@x.com") Sample.world = None
  /\ fst (handleCreateMembership (ParseSuccess Sample.addBob) "org_1"
            Sample.world)
     = respond 200 (InvitationJson (freshId 0) "bob@x.com" MEMBER "PENDING").
Proof. repeat split. Qed.

(** C8, as stated, fails: a user stored as [Bob@x.com] is not found by a
    request for [bob@x.com], and the request is treated as an invitation. *)
Lemma emailMatchIgnoresCase_fails : ~ emailMatchIgnoresCase.
Proof.
  intros [H _].
  specialize (H Sample.addBob "org_1" Sample.world Sample.acme Sample.bob).
  vm_compute in H.
  assert (Hf : false = true) by (apply H; auto).
  discriminate Hf.
Qed.

Lemma find_key_In {A : Type} (p : A -> bool) (l : list A) (x : A) :
  In x l -> p x = true -> exists y, find p l = Some y /\ p y = true.
Proof.
  intros Hin Hp. destruct (find p l) as [y|] eqn:Hf.
  - exists y. split; [reflexivity|]. now apply find_some in Hf.
  - apply (find_none _ _ Hf) in Hin. congruence.
Qed.

(** C8, amended.  The handler lower-cases the request email and compares it
    with the stored addresses as they are: a stored user whose address is in
    lower case and differs from the request email only in letter case is
    found and the existing-user branch is taken; a stored invitation of the
    organization with such an address raises the invitation-exists conflict
    when no user has it; and the invitations the handler stores are in lower
    case. *)
Theorem createMembership_email_lowercased
    (d : CreateMembership.t) (orgId : string) (w : World)
    (org : Organization.t) :
  organizationById orgId w = Some org ->
  projectFound d orgId w = true ->
  let '(r, w') := handleCreateMembership (ParseSuccess d) orgId w in
  (forall u,
      In u (users w) ->
      toLowerCase (User.email u) = toLowerCase (CreateMembership.email d) ->
      User.email u = toLowerCase (User.email u) ->
      (exists u',
          userByEmail (toLowerCase (CreateMembership.email d)) w = Some u'
          /\ User.email u' = User.email u)
      /\ existsb isMembershipLookup (newCalls w w') = true
      /\ existsb isInvitationLookup (newCalls w w') = false)
  /\ (forall i,
        userByEmail (toLowerCase (CreateMembership.email d)) w = None ->
        In i (membershipInvitations w) ->
        MembershipInvitation.orgId i = orgId ->
        toLowerCase (MembershipInvitation.email i)
        = toLowerCase (CreateMembership.email d) ->
        MembershipInvitation.email i
        = toLowerCase (MembershipInvitation.email i) ->
        r = respond 409 (ErrorJson "Invitation already exists for this email"))
  /\ (forall i,
        In i (added (membershipInvitations w) (membershipInvitations w')) ->
        MembershipInvitation.email i
        = toLowerCase (MembershipInvitation.email i)
        /\ toLowerCase (MembershipInvitation.email i)
           = toLowerCase (CreateMembership.email d)).
Proof.
  intros Ho Hp.
  pose proof (preambleCalls_reads d orgId) as Hpre.
  assert (Hnm : existsb isMembershipLookup (preambleCalls d orgId) = false).
  { unfold preambleCalls.
    destruct (CreateMembership.projectId d) as [pid|];
      [destruct (truthy pid)|]; reflexivity. }
  assert (Hni : existsb isInvitationLookup (preambleCalls d orgId) = false).
  { unfold preambleCalls.
    destruct (CreateMembership.projectId d) as [pid|];
      [destruct (truthy pid)|]; reflexivity. }
  assert (Huser : forall u,
    In u (users w) ->
    toLowerCase (User.email u) = toLowerCase (CreateMembership.email d) ->
    User.email u = toLowerCase (User.email u) ->
    exists u',
      userByEmail (toLowerCase (CreateMembership.email d)) w = Some u'
      /\ User.email u' = User.email u).
  { intros u Hin Hcase Hlow. unfold userByEmail.
    destruct (find_key_In
                (fun x => String.eqb (User.email x)
                            (toLowerCase (CreateMembership.email d)))
                (users w) u Hin) as (u' & Hf & Hk).
    - rewrite Hlow, Hcase. apply String.eqb_refl.
    - exists u'. split; [exact Hf|].
      apply String.eqb_eq in Hk. congruence. }
  assert (Hinv : forall i,
    In i (membershipInvitations w) ->
    MembershipInvitation.orgId i = orgId ->
    toLowerCase (MembershipInvitation.email i)
    = toLowerCase (CreateMembership.email d) ->
    MembershipInvitation.email i = toLowerCase (MembershipInvitation.email i) ->
    invitationFor (toLowerCase (CreateMembership.email d)) orgId w <> None).
  { intros i Hin Horg Hcase Hlow Hnone. unfold invitationFor in Hnone.
    apply (find_none _ _ Hnone) in Hin. unfold invitationKey in Hin.
    now rewrite Hlow, Hcase, Horg, !String.eqb_refl in Hin. }
  create_cases d orgId w;
    try discriminate;
    rewrite ?extend_calls, ?logCalls_calls;
    cbn [membershipInvitations extend logCalls];
    rewrite ?added_nil, ?added_app.
  - (* already a member *)
    splits.
    + intros u0 Hin Hcase Hlow. split; [now apply Huser|].
      rewrite !existsb_app, Hnm, Hni. split; reflexivity.
    + intros i Hnone. discriminate Hnone.
    + intros i [].
  - (* membership created *)
    splits.
    + intros u0 Hin Hcase Hlow. split; [now apply Huser|].
      rewrite !existsb_app, Hnm, Hni.
      split; [reflexivity|].
      destruct (grantedProjectRole (resolvedProject d orgId w)
                  (CreateMembership.projectRole d)); reflexivity.
    + intros i Hnone. discriminate Hnone.
    + intros i [].
  - (* already invited *)
    splits.
    + intros u0 Hin Hcase Hlow.
      destruct (Huser u0 Hin Hcase Hlow) as (u' & Hf & _). congruence.
    + reflexivity.
    + intros i [].
  - (* invitation created *)
    splits.
    + intros u0 Hin Hcase Hlow.
      destruct (Huser u0 Hin Hcase Hlow) as (u' & Hf & _). congruence.
    + intros i _ Hin Horg Hcase Hlow.
      now destruct (Hinv i Hin Horg Hcase Hlow).
    + intros i [<-|[]]. unfold newInvitation. cbn.
      now rewrite toLowerCase_idempotent.
Qed.

(** ** [handleUpdateMembership]: the upsert *)

Section UpdateFirst.
Variables (A : Type) (p : A -> bool) (f : A -> A).
Hypothesis keeps_key : forall x, p x = true -> p (f x) = true.

Lemma updateFirst_app_absent (l l' : list A) :
  find p l = None -> updateFirst p f (l ++ l') = l ++ updateFirst p f l'.
Proof.
  induction l as [|x l IH]; cbn; [reflexivity|].
  destruct (p x); [discriminate|]. intros H. now rewrite IH.
Qed.

Lemma find_updateFirst (l : list A) (m : A) :
  find p l = Some m -> find p (updateFirst p f l) = Some (f m).
Proof.
  induction l as [|x l IH]; cbn; [discriminate|].
  destruct (p x) eqn:Hx.
  - intros [= <-]. cbn. now rewrite (keeps_key _ Hx).
  - intros H. cbn. rewrite Hx. now apply IH.
Qed.

Lemma count_updateFirst (l : list A) :
  count p (updateFirst p f l) = count p l.
Proof.
  unfold count. induction l as [|x l IH]; cbn; [reflexivity|].
  destruct (p x) eqn:Hx; cbn.
  - now rewrite (keeps_key _ Hx).
  - rewrite Hx. exact IH.
Qed.

Lemma length_updateFirst (l : list A) :
  List.length (updateFirst p f l) = List.length l.
Proof.
  induction l as [|x l IH]; cbn; [reflexivity|].
  destruct (p x); cbn; [reflexivity | now rewrite IH].
Qed.

Lemma others_updateFirst (l : list A) :
  filter (fun x => negb (p x)) (updateFirst p f l)
  = filter (fun x => negb (p x)) l.
Proof.
  induction l as [|x l IH]; cbn; [reflexivity|].
  destruct (p x) eqn:Hx; cbn.
  - now rewrite (keeps_key _ Hx).
  - rewrite Hx. cbn. now rewrite IH.
Qed.

Lemma updateFirst_twice (l : list A) :
  (forall x, f (f x) = f x) ->
  updateFirst p f (updateFirst p f l) = updateFirst p f l.
Proof.
  intros Hff. induction l as [|x l IH]; cbn; [reflexivity|].
  destruct (p x) eqn:Hx; cbn.
  - now rewrite (keeps_key _ Hx), Hff.
  - rewrite Hx. now rewrite IH.
Qed.

Lemma count_find_none (l : list A) : find p l = None -> count p l = 0.
Proof.
  unfold count. induction l as [|x l IH]; cbn; [reflexivity|].
  destruct (p x); [discriminate | exact IH].
Qed.

Lemma count_find_some (l : list A) (m : A) :
  find p l = Some m -> 1 <= count p l.
Proof.
  unfold count. induction l as [|x l IH]; cbn; [discriminate|].
  destruct (p x); cbn; [lia | exact IH].
Qed.

Lemma count_app (l l' : list A) : count p (l ++ l') = count p l + count p l'.
Proof. unfold count. now rewrite filter_app, length_app. Qed.
End UpdateFirst.

Lemma membershipKey_setRole
    (orgId userId : string) (r : Role) (m : OrganizationMembership.t) :
  membershipKey orgId userId m = true ->
  membershipKey orgId userId (OrganizationMembership.setRole r m) = true.
Proof. intros H. exact H. Qed.

(** The upsert as a function of the lookup in the initial world. *)
Lemma handleUpdateMembership_cases
    (d : Membership.t) (orgId : string) (w : World) :
  handleUpdateMembership (ParseSuccess d) orgId w =
  match userById (Membership.userId d) w with
  | None =>
      (respond 404 (ErrorJson "User not found"),
       logCalls [UserFindUniqueById (Membership.userId d)] w)
  | Some u =>
      let key := membershipKey orgId (Membership.userId d) in
      let cs :=
        [UserFindUniqueById (Membership.userId d);
         OrganizationMembershipUpsert orgId (Membership.userId d)
           (Membership.role d)] in
      match membershipOf orgId (Membership.userId d) w with
      | Some m =>
          (respond 200
             (MembershipJson (OrganizationMembership.userId m)
                (Membership.role d) (User.email u) (User.name u)),
           logCalls cs
             (setOrganizationMemberships
                (updateFirst key
                   (OrganizationMembership.setRole (Membership.role d))
                   (organizationMemberships w))
                (nextId w) w))
      | None =>
          (respond 200
             (MembershipJson (Membership.userId d) (Membership.role d)
                (User.email u) (User.name u)),
           logCalls cs
             (setOrganizationMemberships
                (organizationMemberships w
                 ++ [OrganizationMembership.mk (freshId (nextId w)) orgId
                       (Membership.userId d) (Membership.role d)])
                (S (nextId w)) w))
      end
  end.
Proof.
  unfold handleUpdateMembership, prisma_organizationMembership_upsert.
  unfold_prog.
  destruct (userById (Membership.userId d) w) as [u|].
  2: { apply f_equal2; [reflexivity | world_eq]. }
  change (membershipOf orgId (Membership.userId d)
            (logCall (UserFindUniqueById (Membership.userId d)) w))
    with (membershipOf orgId (Membership.userId d) w).
  destruct (membershipOf orgId (Membership.userId d) w) as [m|];
    (apply f_equal2; [reflexivity | world_eq]).
Qed.

Lemma membershipOf_key
    (orgId userId : string) (w : World) (m : OrganizationMembership.t) :
  membershipOf orgId userId w = Some m ->
  OrganizationMembership.orgId m = orgId
  /\ OrganizationMembership.userId m = userId.
Proof.
  intros H. apply find_some in H. destruct H as [_ H].
  unfold membershipKey in H. apply andb_true_iff in H.
  destruct H as [H1 H2]. now apply String.eqb_eq in H1, H2.
Qed.

(** C9. [handleUpdateMembership] is an upsert keyed on [(orgId, userId)]: for
    an existing user it answers [(userId, role, email, name)]; absent a
    membership it appends exactly one row with the given role; otherwise it
    rewrites the role of the stored row where it stands and touches nothing
    else; a second call leaves one row, whose role is the second call's
    argument, and repeating the same role changes nothing. *)
Theorem upsertMembership_idempotent
    (d d2 : Membership.t) (orgId : string) (w : World) (u : User.t) :
  userById (Membership.userId d) w = Some u ->
  count (membershipKey orgId (Membership.userId d))
    (organizationMemberships w) <= 1 ->
  Membership.userId d2 = Membership.userId d ->
  let key := membershipKey orgId (Membership.userId d) in
  let '(r1, w1) := handleUpdateMembership (ParseSuccess d) orgId w in
  let '(r2, w2) := handleUpdateMembership (ParseSuccess d2) orgId w1 in
  r1 = respond 200
         (MembershipJson (Membership.userId d) (Membership.role d)
            (User.email u) (User.name u))
  /\ r2 = respond 200
            (MembershipJson (Membership.userId d) (Membership.role d2)
               (User.email u) (User.name u))
  /\ (membershipOf orgId (Membership.userId d) w = None ->
      organizationMemberships w1
      = organizationMemberships w
        ++ [OrganizationMembership.mk (freshId (nextId w)) orgId
              (Membership.userId d) (Membership.role d)])
  /\ (forall m,
        membershipOf orgId (Membership.userId d) w = Some m ->
        organizationMemberships w1
        = updateFirst key (OrganizationMembership.setRole (Membership.role d))
            (organizationMemberships w)
        /\ membershipOf orgId (Membership.userId d) w1
           = Some (OrganizationMembership.setRole (Membership.role d) m)
        /\ List.length (organizationMemberships w1)
           = List.length (organizationMemberships w)
        /\ filter (fun x => negb (key x)) (organizationMemberships w1)
           = filter (fun x => negb (key x)) (organizationMemberships w))
  /\ count key (organizationMemberships w1) = 1
  /\ count key (organizationMemberships w2) = 1
  /\ (exists m1,
        membershipOf orgId (Membership.userId d) w1 = Some m1
        /\ OrganizationMembership.role m1 = Membership.role d
        /\ membershipOf orgId (Membership.userId d) w2
           = Some (OrganizationMembership.setRole (Membership.role d2) m1))
  /\ List.length (organizationMemberships w2)
     = List.length (organizationMemberships w1)
  /\ (Membership.role d2 = Membership.role d ->
      organizationMemberships w2 = organizationMemberships w1).
Proof.
  intros Hu Hc He. cbv zeta.
  pose proof (membershipKey_setRole orgId (Membership.userId d)) as Hkeep.
  rewrite (handleUpdateMembership_cases d orgId w), Hu. cbv zeta.
  destruct (membershipOf orgId (Membership.userId d) w) as [m|] eqn:Hm.
  - (* a membership is stored: update in place *)
    destruct (membershipOf_key _ _ _ _ Hm) as [Hmo Hmu].
    set (oms1 := updateFirst (membershipKey orgId (Membership.userId d))
                   (OrganizationMembership.setRole (Membership.role d))
                   (organizationMemberships w)).
    assert (Hm1 :
      find (membershipKey orgId (Membership.userId d)) oms1
      = Some (OrganizationMembership.setRole (Membership.role d) m)).
    { apply find_updateFirst; [apply Hkeep | exact Hm]. }
    assert (Hc1 : count (membershipKey orgId (Membership.userId d)) oms1 = 1).
    { unfold oms1. rewrite count_updateFirst by apply Hkeep.
      pose proof (count_find_some _ _ _ _ Hm). lia. }
    rewrite (handleUpdateMembership_cases d2 orgId _), He.
    cbv beta iota zeta.
    change (userById (Membership.userId d) (logCalls _ _))
      with (userById (Membership.userId d) w).
    rewrite Hu.
    change (membershipOf orgId (Membership.userId d) (logCalls _ _))
      with (find (membershipKey orgId (Membership.userId d)) oms1).
    rewrite Hm1.
    cbn [organizationMemberships logCalls setOrganizationMemberships
         OrganizationMembership.userId OrganizationMembership.setRole
         OrganizationMembership.role].
    fold oms1.
    splits.
    + now rewrite Hmu.
    + now rewrite Hmu.
    + discriminate.
    + intros m0 [= <-]. splits.
      * reflexivity.
      * reflexivity.
      * apply length_updateFirst.
      * apply others_updateFirst. apply Hkeep.
    + exact Hc1.
    + rewrite count_updateFirst by apply Hkeep. exact Hc1.
    + eexists. split; [reflexivity|]. split; [reflexivity|].
      unfold membershipOf.
      cbn [organizationMemberships logCalls setOrganizationMemberships].
      apply find_updateFirst; [apply Hkeep | exact Hm1].
    + apply length_updateFirst.
    + intros ->. unfold oms1. apply updateFirst_twice; [apply Hkeep|].
      intros x. reflexivity.
  - (* no membership: create *)
    set (row := OrganizationMembership.mk (freshId (nextId w)) orgId
                  (Membership.userId d) (Membership.role d)).
    set (oms1 := organizationMemberships w ++ [row]).
    assert (Hk : membershipKey orgId (Membership.userId d) row = true).
    { unfold membershipKey, row. cbn. now rewrite !String.eqb_refl. }
    assert (Hm1 : find (membershipKey orgId (Membership.userId d)) oms1
                  = Some row).
    { unfold oms1. rewrite find_app.
      unfold membershipOf in Hm. rewrite Hm. cbn. now rewrite Hk. }
    assert (Hc1 : count (membershipKey orgId (Membership.userId d)) oms1 = 1).
    { unfold oms1. rewrite count_app.
      rewrite (count_find_none _ _ _ Hm). unfold count. cbn. now rewrite Hk. }
    rewrite (handleUpdateMembership_cases d2 orgId _), He.
    cbv beta iota zeta.
    change (userById (Membership.userId d) (logCalls _ _))
      with (userById (Membership.userId d) w).
    rewrite Hu.
    change (membershipOf orgId (Membership.userId d) (logCalls _ _))
      with (find (membershipKey orgId (Membership.userId d)) oms1).
    rewrite Hm1.
    cbn [organizationMemberships logCalls setOrganizationMemberships
         OrganizationMembership.userId OrganizationMembership.setRole
         OrganizationMembership.role row].
    fold row. fold oms1.
    splits.
    + reflexivity.
    + reflexivity.
    + reflexivity.
    + discriminate.
    + exact Hc1.
    + rewrite count_updateFirst by apply Hkeep. exact Hc1.
    + eexists. split; [reflexivity|]. split; [reflexivity|].
      unfold membershipOf.
      cbn [organizationMemberships logCalls setOrganizationMemberships].
      apply find_updateFirst; [apply Hkeep | exact Hm1].
    + apply length_updateFirst.
    + intros ->. unfold oms1.
      rewrite updateFirst_app_absent by exact Hm.
      cbn. now rewrite Hk.
Qed.

(** ** The statements at the sample data *)

Lemma createMembership_existing_user_witness :
  userByEmail "existing@x.com" Sample.world = Some Sample.existing
  /\ membershipOf "org_1" "u1" Sample.world = None
  /\ fst (handleCreateMembership (ParseSuccess Sample.addExisting) "org_1"
            Sample.world)
     = respond 200 (MembershipJson "u1" ADMIN "existing@x.com" "Existing User").
Proof.
  split; [reflexivity|]. split; [reflexivity|].
  generalize (createMembership_existing_user Sample.addExisting "org_1"
                Sample.world Sample.acme Sample.existing
                eq_refl eq_refl eq_refl eq_refl).
  destruct (handleCreateMembership (ParseSuccess Sample.addExisting) "org_1"
              Sample.world) as [r w'].
  intros H. exact (proj1 H).
Defined.

Lemma createMembership_new_user_witness :
  userByEmail "new@x.com" Sample.world = None
  /\ invitationFor "new@x.com" "org_1" Sample.world = None
  /\ fst (handleCreateMembership (ParseSuccess Sample.inviteNew) "org_1"
            Sample.world)
     = respond 200 (InvitationJson (freshId 0) "new@x.com" MEMBER "PENDING").
Proof.
  split; [reflexivity|]. split; [reflexivity|].
  generalize (createMembership_new_user Sample.inviteNew "org_1"
                Sample.world Sample.acme eq_refl eq_refl eq_refl eq_refl).
  destruct (handleCreateMembership (ParseSuccess Sample.inviteNew) "org_1"
              Sample.world) as [r w'].
  intros H. exact (proj1 H).
Defined.

Lemma createMembership_member_conflict_witness :
  membershipOf "org_1" "u1" Sample.world = None
  /\ toLowerCase "Existing@X.com" = toLowerCase "existing@x.com"
  /\ fst (handleCreateMembership (ParseSuccess Sample.addExistingAgain)
            "org_1"
            (snd (handleCreateMembership (ParseSuccess Sample.addExisting)
                    "org_1" Sample.world)))
     = respond 409
         (ErrorJson "User is already a member of this organization").
Proof.
  split; [reflexivity|]. split; [reflexivity|].
  generalize (proj2 (createMembership_member_conflict Sample.addExisting
                       Sample.addExistingAgain "org_1" Sample.world
                       Sample.acme Sample.existing
                       eq_refl eq_refl eq_refl eq_refl eq_refl) eq_refl).
  destruct (handleCreateMembership (ParseSuccess Sample.addExisting) "org_1"
              Sample.world) as [r1 w1].
  cbn [snd].
  destruct (handleCreateMembership (ParseSuccess Sample.addExistingAgain)
              "org_1" w1) as [r2 w2].
  intros H. exact (proj1 (proj2 H)).
Defined.

Lemma createMembership_invitation_conflict_witness :
  userByEmail "new@x.com" Sample.world = None
  /\ invitationFor "new@x.com" "org_1" Sample.world = None
  /\ toLowerCase "NEW@x.com" = toLowerCase "new@x.com"
  /\ fst (handleCreateMembership (ParseSuccess Sample.inviteNewAgain) "org_1"
            (snd (handleCreateMembership (ParseSuccess Sample.inviteNew)
                    "org_1" Sample.world)))
     = respond 409 (ErrorJson "Invitation already exists for this email").
Proof.
  split; [reflexivity|]. split; [reflexivity|]. split; [reflexivity|].
  generalize (createMembership_invitation_conflict Sample.inviteNew
                Sample.inviteNewAgain "org_1" Sample.world Sample.acme
                eq_refl eq_refl eq_refl eq_refl eq_refl eq_refl).
  destruct (handleCreateMembership (ParseSuccess Sample.inviteNew) "org_1"
              Sample.world) as [r1 w1].
  cbn [snd].
  destruct (handleCreateMembership (ParseSuccess Sample.inviteNewAgain)
              "org_1" w1) as [r2 w2].
  intros H. exact (proj1 (proj2 H)).
Defined.

Lemma createMembership_project_role_witness :
  status (fst (handleCreateMembership (ParseSuccess Sample.addExisting)
                 "org_1" Sample.world)) = 200
  /\ projectMemberships
       (snd (handleCreateMembership (ParseSuccess Sample.addExisting) "org_1"
               Sample.world))
     = [ProjectMembership.mk "u1" "proj_1" MEMBER (freshId 0)].
Proof.
  split; [reflexivity|].
  generalize (createMembership_project_role Sample.addExisting "org_1"
                Sample.world).
  destruct (handleCreateMembership (ParseSuccess Sample.addExisting) "org_1"
              Sample.world) as [r w'] eqn:Hrun.
  intros (_ & _ & _ & _ & H).
  assert (Hs : status r = 200).
  { change r with (fst (r, w')). rewrite <- Hrun. reflexivity. }
  exact (H Hs).
Defined.

Lemma createMembership_ordering_witness :
  auditedWrites
    (newCalls Sample.world
       (snd (handleCreateMembership (ParseSuccess Sample.addExisting) "org_1"
               Sample.world))) = true
  /\ List.length
       (newCalls Sample.world
          (snd (handleCreateMembership (ParseSuccess Sample.addExisting)
                  "org_1" Sample.world))) = 9.
Proof.
  split; [|reflexivity].
  generalize (createMembership_ordering Sample.addExisting "org_1"
                Sample.world).
  destruct (handleCreateMembership (ParseSuccess Sample.addExisting) "org_1"
              Sample.world) as [r w'].
  intros H. exact (proj1 (proj2 H)).
Defined.

Lemma createMembership_lookup_order_witness :
  precedes isUserLookup isOrganizationLookup
    (newCalls Sample.world
       (snd (handleCreateMembership (ParseSuccess Sample.inviteNew) "org_1"
               Sample.world))) = true.
Proof.
  generalize (createMembership_lookup_order Sample.inviteNew "org_1"
                Sample.world).
  destruct (handleCreateMembership (ParseSuccess Sample.inviteNew) "org_1"
              Sample.world) as [r w'].
  intros H. exact (proj1 (proj2 H)).
Defined.

Lemma createMembership_email_lowercased_witness :
  In Sample.existing (users Sample.world)
  /\ toLowerCase (User.email Sample.existing) = toLowerCase "Existing@X.com"
  /\ User.email Sample.existing = toLowerCase (User.email Sample.existing)
  /\ existsb isMembershipLookup
       (newCalls Sample.world
          (snd (handleCreateMembership (ParseSuccess Sample.addExistingAgain)
                  "org_1" Sample.world))) = true.
Proof.
  split; [left; reflexivity|]. split; [reflexivity|]. split; [reflexivity|].
  generalize (createMembership_email_lowercased Sample.addExistingAgain
                "org_1" Sample.world Sample.acme eq_refl eq_refl).
  destruct (handleCreateMembership (ParseSuccess Sample.addExistingAgain)
              "org_1" Sample.world) as [r w'].
  intros (H & _).
  exact (proj1 (proj2 (H Sample.existing (or_introl eq_refl) eq_refl
                         eq_refl))).
Defined.

Lemma upsertMembership_idempotent_witness :
  userById "u1" Sample.world = Some Sample.existing
  /\ count (membershipKey "org_1" "u1")
       (organizationMemberships Sample.world) <= 1
  /\ fst (handleUpdateMembership (ParseSuccess Sample.updateAgain) "org_1"
            (snd (handleUpdateMembership (ParseSuccess Sample.update)
                    "org_1" Sample.world)))
     = respond 200 (MembershipJson "u1" MEMBER "existing@x.com" "Existing User")
  /\ count (membershipKey "org_1" "u1")
       (organizationMemberships
          (snd (handleUpdateMembership (ParseSuccess Sample.updateAgain)
                  "org_1"
                  (snd (handleUpdateMembership (ParseSuccess Sample.update)
                          "org_1" Sample.world))))) = 1.
Proof.
  split; [reflexivity|]. split; [apply Nat.le_0_1|].
  generalize (upsertMembership_idempotent Sample.update Sample.updateAgain
                "org_1" Sample.world Sample.existing eq_refl Nat.le_0_1
                eq_refl).
  cbv zeta.
  destruct (handleUpdateMembership (ParseSuccess Sample.update) "org_1"
              Sample.world) as [r1 w1].
  cbn [snd].
  destruct (handleUpdateMembership (ParseSuccess Sample.updateAgain) "org_1"
              w1) as [r2 w2].
  intros (_ & Hr2 & _ & _ & _ & Hc2 & _).
  split; [exact Hr2 | exact Hc2].
Defined.

Lemma createMembership_audit_entries_witness :
  map AuditLog.resourceId
    (newAudits Sample.world
       (snd (handleCreateMembership (ParseSuccess Sample.addExisting) "org_1"
               Sample.world)))
  = [freshId 0; "proj_1--u1"]
  /\ Forall (fun e => AuditLog.userId e = "API" /\ AuditLog.orgRole e = ADMIN)
       (newAudits Sample.world
          (snd (handleCreateMembership (ParseSuccess Sample.addExisting)
                  "org_1" Sample.world))).
Proof.
  split; [reflexivity|].
  generalize (createMembership_audit_entries Sample.addExisting "org_1"
                Sample.world).
  destruct (handleCreateMembership (ParseSuccess Sample.addExisting) "org_1"
              Sample.world) as [r w'].
  intros (_ & H & _). cbn [snd].
  apply Forall_forall. intros e He.
  destruct (H e He) as (Ha & Hb & _). split; assumption.
Defined.

(* ================================================================== *)
(** * Further properties of the handlers *)

(** ** What [handleCreateMembership] leaves alone *)

Lemma extend_nothing (cs : list Call) (w : World) :
  logCalls cs w = extend [] [] [] [] [] cs 0 w.
Proof. world_eq. Qed.

(** X1. A run of [handleCreateMembership] only appends: users,
    organizations and projects are not touched and no stored row is changed
    or removed.  It adds at most one membership or one invitation, never
    both, a project membership only together with a membership, one audit
    entry per row written and exactly one mail when a membership or an
    invitation was written. *)
Theorem createMembership_only_appends
    (validatedBody : SafeParse CreateMembership.t) (orgId : string)
    (w : World) :
  exists oms pms invs audits mails cs,
    snd (handleCreateMembership validatedBody orgId w)
    = extend oms pms invs audits mails cs
        (List.length oms + List.length invs) w
    /\ List.length oms + List.length invs <= 1
    /\ List.length pms <= List.length oms
    /\ List.length audits
       = List.length oms + List.length pms + List.length invs
    /\ List.length mails = List.length oms + List.length invs.
Proof.
  destruct validatedBody as [issues|d].
  - exists [], [], [], [], [], []. cbn [snd handleCreateMembership ret].
    split; [world_eq | cbn; lia].
  - create_cases d orgId w; cbn [snd]; rewrite ?extend_nothing.
    1, 3, 5, 6:
      (exists [], [], [], [], []; eexists; split; [reflexivity | cbn; lia]).
    + eexists [_], _, [], _, [_], _. split; [reflexivity|].
      destruct (grantedProjectRole (resolvedProject d orgId w)
                  (CreateMembership.projectRole d)); cbn; lia.
    + eexists [], [], [_], _, [_], _. split; [reflexivity | cbn; lia].
Qed.

(** ** The project guard *)

(** X2. When the organization exists and a non-empty [projectId] is given
    that no live project of this organization carries - the project is
    unknown, belongs to another organization or is soft-deleted - the answer
    is 404 "Project not found in this organization", whether or not the user
    exists, and the run makes reads only. *)
Theorem createMembership_project_not_found
    (d : CreateMembership.t) (orgId pid : string) (w : World)
    (org : Organization.t) :
  organizationById orgId w = Some org ->
  CreateMembership.projectId d = Some pid ->
  truthy pid = true ->
  (forall p,
      In p (projects w) -> Project.id p = pid ->
      Project.orgId p <> orgId \/ Project.deletedAt p <> None) ->
  handleCreateMembership (ParseSuccess d) orgId w
  = (respond 404 (ErrorJson "Project not found in this organization"),
     logCalls
       [UserFindUniqueByEmail (toLowerCase (CreateMembership.email d));
        OrganizationFindUnique orgId; ProjectFindFirst pid orgId] w).
Proof.
  intros Ho Hd Ht Hnone.
  assert (Hp : projectIn pid orgId w = None).
  { unfold projectIn. destruct (find (liveProject pid orgId) (projects w))
      as [p|] eqn:Hf; [|reflexivity].
    apply find_some in Hf. destruct Hf as [Hin Hlive].
    unfold liveProject in Hlive.
    apply andb_true_iff in Hlive. destruct Hlive as [Hlive Hdel].
    apply andb_true_iff in Hlive. destruct Hlive as [Hid Horg].
    apply String.eqb_eq in Hid, Horg.
    destruct (Hnone p Hin Hid) as [H|H]; [contradiction|].
    destruct (Project.deletedAt p); [discriminate | now contradiction H]. }
  rewrite handleCreateMembership_cases, Ho.
  unfold projectFound, resolvedProject, preambleCalls.
  rewrite Hd. cbn [truthyOpt]. rewrite Ht, Hp. reflexivity.
Qed.

(** X3. An empty [projectId] is taken as none, and a project role is dropped
    when it is NONE or comes without a project: such a request is answered
    like the one without a project, without a project role, and leaves the
    same world. *)
Theorem createMembership_project_role_ignored
    (email : string) (role : Role) (projectId : option string)
    (projectRole : option Role) (orgId : string) (w : World) :
  handleCreateMembership
    (ParseSuccess (CreateMembership.mk email role (Some "") projectRole))
    orgId w
  = handleCreateMembership
      (ParseSuccess (CreateMembership.mk email role None None)) orgId w
  /\ (projectRole = Some NONE \/ truthyOpt projectId = false ->
      handleCreateMembership
        (ParseSuccess (CreateMembership.mk email role projectId projectRole))
        orgId w
      = handleCreateMembership
          (ParseSuccess (CreateMembership.mk email role projectId None))
          orgId w).
Proof.
  assert (Hdrop : forall projectId projectRole,
    projectRole = Some NONE \/ truthyOpt projectId = false ->
    handleCreateMembership
      (ParseSuccess (CreateMembership.mk email role projectId projectRole))
      orgId w
    = handleCreateMembership
        (ParseSuccess (CreateMembership.mk email role projectId None))
        orgId w); [clear projectId projectRole | ].
  2: { split; [|apply Hdrop].
       rewrite (Hdrop (Some "") projectRole) by (right; reflexivity).
       reflexivity. }
  intros projectId projectRole H.
  assert (Hg : forall project,
    project = resolvedProject
                (CreateMembership.mk email role projectId projectRole)
                orgId w ->
    grantedProjectRole project projectRole = None).
  { intros project ->. destruct H as [->|H].
    - unfold grantedProjectRole.
      destruct (resolvedProject _ _ _); reflexivity.
    - unfold resolvedProject. cbn.
      destruct projectId as [pid|]; [|reflexivity].
      cbn in H. rewrite H. reflexivity. }
  rewrite !handleCreateMembership_cases.
  change (resolvedProject (CreateMembership.mk email role projectId None)
            orgId w)
    with (resolvedProject
            (CreateMembership.mk email role projectId projectRole) orgId w).
  change (projectFound (CreateMembership.mk email role projectId None)
            orgId w)
    with (projectFound
            (CreateMembership.mk email role projectId projectRole) orgId w).
  change (preambleCalls (CreateMembership.mk email role projectId None) orgId)
    with (preambleCalls
            (CreateMembership.mk email role projectId projectRole) orgId).
  unfold newInvitation.
  cbn [CreateMembership.email CreateMembership.role
       CreateMembership.projectRole].
  rewrite (Hg _ eq_refl).
  destruct (resolvedProject _ _ _); reflexivity.
Qed.

(** ** The notification *)

(** X4. Every mail [handleCreateMembership] sends goes to the email as it
    was sent in the request, in the name of "Organization Admin", for the
    stored organization; its sender is the configured address, or
    [noreply@langfuse.com] when none or an empty one is configured, and is
    never empty; [userExists] tells whether the lower-cased email has an
    account. *)
Theorem createMembership_mail
    (d : CreateMembership.t) (orgId : string) (w : World) :
  let '(r, w') := handleCreateMembership (ParseSuccess d) orgId w in
  forall mail,
    In mail (added (outbox w) (outbox w')) ->
    InvitationEmail.to mail = CreateMembership.email d
    /\ InvitationEmail.inviterName mail = "Organization Admin"
    /\ InvitationEmail.orgId mail = orgId
    /\ (exists org,
          organizationById orgId w = Some org
          /\ InvitationEmail.orgName mail = Organization.name org)
    /\ truthy (InvitationEmail.inviterEmail mail) = true
    /\ (forall address,
          Env.EMAIL_FROM_ADDRESS (env w) = Some address ->
          truthy address = true ->
          InvitationEmail.inviterEmail mail = address)
    /\ (truthyOpt (Env.EMAIL_FROM_ADDRESS (env w)) = false ->
        InvitationEmail.inviterEmail mail = "noreply@langfuse.com")
    /\ InvitationEmail.userExists mail
       = isSome (userByEmail (toLowerCase (CreateMembership.email d)) w).
Proof.
  assert (Hsender : forall exists_,
    let mail := invitationEmail d orgId
                  (Organization.mk "" "") exists_ w in
    truthy (InvitationEmail.inviterEmail mail) = true
    /\ (forall address,
          Env.EMAIL_FROM_ADDRESS (env w) = Some address ->
          truthy address = true ->
          InvitationEmail.inviterEmail mail = address)
    /\ (truthyOpt (Env.EMAIL_FROM_ADDRESS (env w)) = false ->
        InvitationEmail.inviterEmail mail = "noreply@langfuse.com")).
  { intros exists_. cbn. unfold orElse.
    destruct (Env.EMAIL_FROM_ADDRESS (env w)) as [a|]; cbn.
    - destruct (truthy a) eqn:Ha; splits; try reflexivity.
      + exact Ha.
      + intros address [= <-] _. reflexivity.
      + discriminate.
      + intros address [= <-] Ht. congruence.
    - splits; try reflexivity. discriminate. }
  create_cases d orgId w;
    cbn [outbox extend logCalls]; rewrite ?added_app, ?added_nil;
    intros mail Hin; try contradiction;
    destruct Hin as [<-|[]];
    destruct (Hsender true) as (H1 & H2 & H3);
    splits; try reflexivity; try assumption;
    eexists; split; reflexivity.
Qed.

(** ** Letter case of the request *)

(** X5. The email of the request matters to the stored data only through its
    lower-case form: two requests that differ in the letter case of the email
    alone get the same status and leave the same memberships, project
    memberships, invitations and audit entries. *)
Theorem createMembership_request_case
    (email email' : string) (role : Role) (projectId : option string)
    (projectRole : option Role) (orgId : string) (w : World) :
  toLowerCase email' = toLowerCase email ->
  let '(r, w1) :=
    handleCreateMembership
      (ParseSuccess (CreateMembership.mk email role projectId projectRole))
      orgId w in
  let '(r', w1') :=
    handleCreateMembership
      (ParseSuccess (CreateMembership.mk email' role projectId projectRole))
      orgId w in
  status r' = status r
  /\ organizationMemberships w1' = organizationMemberships w1
  /\ projectMemberships w1' = projectMemberships w1
  /\ membershipInvitations w1' = membershipInvitations w1
  /\ auditLogs w1' = auditLogs w1
  /\ List.length (outbox w1') = List.length (outbox w1).
Proof.
  intros He.
  rewrite !handleCreateMembership_cases.
  change (resolvedProject
            (CreateMembership.mk email' role projectId projectRole) orgId w)
    with (resolvedProject
            (CreateMembership.mk email role projectId projectRole) orgId w).
  change (projectFound
            (CreateMembership.mk email' role projectId projectRole) orgId w)
    with (projectFound
            (CreateMembership.mk email role projectId projectRole) orgId w).
  unfold newInvitation, newOrgMembership, orgMembershipAudit, invitationAudit.
  cbn [CreateMembership.email CreateMembership.role
       CreateMembership.projectRole].
  rewrite He.
  destruct (organizationById orgId w) as [org|]; [|now splits].
  destruct (projectFound _ orgId w); [|now splits].
  destruct (userByEmail (toLowerCase email) w) as [u|].
  - destruct (membershipOf orgId (User.id u) w); [now splits|].
    cbn [status organizationMemberships projectMemberships
         membershipInvitations auditLogs outbox extend].
    splits; try reflexivity.
    now rewrite !length_app.
  - destruct (invitationFor (toLowerCase email) orgId w); [now splits|].
    cbn [status organizationMemberships projectMemberships
         membershipInvitations auditLogs outbox extend].
    splits; try reflexivity.
    now rewrite !length_app.
Qed.

(** ** Invariants of the tables *)

Section Distinct.
Variables (A : Type) (same : A -> A -> bool).
Hypothesis same_sym : forall a b, same a b = same b a.

Lemma distinctBy_snoc (l : list A) (x : A) :
  distinctBy same (l ++ [x])
  = distinctBy same l && negb (existsb (same x) l).
Proof.
  induction l as [|a l IH]; cbn; [reflexivity|].
  rewrite IH, existsb_app. cbn. rewrite (same_sym x a).
  destruct (existsb (same a) l), (same a x), (distinctBy same l),
    (existsb (same x) l); reflexivity.
Qed.

Lemma existsb_filter (p q : A -> bool) (l : list A) :
  existsb p l = false -> existsb p (filter q l) = false.
Proof.
  induction l as [|a l IH]; cbn; [reflexivity|].
  intros H. apply orb_false_iff in H. destruct H as [Ha Hl].
  destruct (q a); cbn; rewrite ?Ha; auto.
Qed.

Lemma distinctBy_filter (q : A -> bool) (l : list A) :
  distinctBy same l = true -> distinctBy same (filter q l) = true.
Proof.
  induction l as [|a l IH]; cbn; [reflexivity|].
  intros H. apply andb_true_iff in H. destruct H as [Ha Hl].
  destruct (q a); cbn; [|auto].
  rewrite (IH Hl), andb_true_r.
  apply negb_true_iff. apply existsb_filter.
  now apply negb_true_iff.
Qed.

Lemma existsb_same (p q : A -> bool) (l : list A) :
  (forall x, p x = q x) -> existsb p l = existsb q l.
Proof.
  intros H. induction l as [|a l IH]; cbn; [reflexivity|].
  now rewrite H, IH.
Qed.

Lemma existsb_updateFirst (p q : A -> bool) (f : A -> A) (l : list A) :
  (forall x, q (f x) = q x) ->
  existsb q (updateFirst p f l) = existsb q l.
Proof.
  intros Hq. induction l as [|a l IH]; cbn; [reflexivity|].
  destruct (p a); cbn; [now rewrite Hq | now rewrite IH].
Qed.

Lemma distinctBy_updateFirst (p : A -> bool) (f : A -> A) (l : list A) :
  (forall x y, same (f x) y = same x y) ->
  distinctBy same (updateFirst p f l) = distinctBy same l.
Proof.
  intros Hf. induction l as [|a l IH]; cbn; [reflexivity|].
  destruct (p a); cbn.
  - f_equal. f_equal. apply existsb_same. intros y. apply Hf.
  - rewrite IH. f_equal. f_equal. apply existsb_updateFirst.
    intros x. now rewrite (same_sym a (f x)), Hf, same_sym.
Qed.
End Distinct.

Lemma find_none_existsb {A : Type} (p : A -> bool) (l : list A) :
  find p l = None -> existsb p l = false.
Proof.
  induction l as [|a l IH]; cbn; [reflexivity|].
  destruct (p a); [discriminate | exact IH].
Qed.

Lemma sameMember_sym (a b : OrganizationMembership.t) :
  sameMember a b = sameMember b a.
Proof.
  unfold sameMember, membershipKey.
  now rewrite (String.eqb_sym (OrganizationMembership.orgId b)),
    (String.eqb_sym (OrganizationMembership.userId b)).
Qed.



Lemma existsb_app_l {A : Type} (p : A -> bool) (l l' : list A) :
  existsb p l = true -> existsb p (l ++ l') = true.
Proof. intros H. now rewrite existsb_app, H. Qed.

Lemma backed_grows
    (pms : list ProjectMembership.t)
    (oms new : list OrganizationMembership.t) :
  forallb (fun pm => existsb (backs pm) oms) pms = true ->
  forallb (fun pm => existsb (backs pm) (oms ++ new)) pms = true.
Proof.
  rewrite !forallb_forall. intros H pm Hin.
  apply existsb_app_l. now apply H.
Qed.


(** ** [handleUpdateMembership] *)

(** X8. [handleUpdateMembership] answers 404 "User not found" for an unknown
    user and then writes nothing.  In every run it records no audit entry,
    sends no mail, touches no table but the memberships, removes no row and
    leaves the rows of every other [(orgId, userId)] as they are. *)
Theorem updateMembership_frame
    (d : Membership.t) (orgId : string) (w : World) :
  let '(r, w') := handleUpdateMembership (ParseSuccess d) orgId w in
  let key := membershipKey orgId (Membership.userId d) in
  (userById (Membership.userId d) w = None ->
   r = respond 404 (ErrorJson "User not found")
   /\ w' = logCalls [UserFindUniqueById (Membership.userId d)] w)
  /\ users w' = users w /\ organizations w' = organizations w
  /\ projects w' = projects w
  /\ projectMemberships w' = projectMemberships w
  /\ membershipInvitations w' = membershipInvitations w
  /\ auditLogs w' = auditLogs w /\ outbox w' = outbox w
  /\ List.length (organizationMemberships w)
     <= List.length (organizationMemberships w')
  /\ filter (fun m => negb (key m)) (organizationMemberships w')
     = filter (fun m => negb (key m)) (organizationMemberships w).
Proof.
  rewrite handleUpdateMembership_cases.
  destruct (userById (Membership.userId d) w) as [u|].
  - cbv zeta.
    destruct (membershipOf orgId (Membership.userId d) w) as [m|] eqn:Hm;
      cbn [users organizations projects projectMemberships
           membershipInvitations auditLogs outbox organizationMemberships
           logCalls setOrganizationMemberships];
      splits; try reflexivity; try discriminate.
    + now rewrite length_updateFirst.
    + apply others_updateFirst. apply membershipKey_setRole.
    + rewrite length_app. lia.
    + rewrite filter_app. cbn [filter].
      assert (Hk : membershipKey orgId (Membership.userId d)
                     (OrganizationMembership.mk (freshId (nextId w)) orgId
                        (Membership.userId d) (Membership.role d)) = true)
        by (unfold membershipKey; cbn; now rewrite !String.eqb_refl).
      rewrite Hk. apply app_nil_r.
  - cbn [users organizations projects projectMemberships
         membershipInvitations auditLogs outbox organizationMemberships
         logCalls].
    splits; try reflexivity. intros _. split; reflexivity.
Qed.

Lemma sameMember_setRole (r : Role) (x y : OrganizationMembership.t) :
  sameMember (OrganizationMembership.setRole r x) y = sameMember x y.
Proof. reflexivity. Qed.

Lemma backs_setRole
    (pm : ProjectMembership.t) (r : Role) (om : OrganizationMembership.t) :
  backs pm (OrganizationMembership.setRole r om) = backs pm om.
Proof. reflexivity. Qed.

(** X9. [handleUpdateMembership] keeps [(orgId, userId)] unique among the
    memberships and keeps every project membership pointing to a stored
    membership of its user: the upsert rewrites the role only, in the row the
    key selects, or appends a row when the key selects none. *)
Theorem updateMembership_keeps_invariants
    (validatedBody : SafeParse Membership.t) (orgId : string) (w : World) :
  let w' := snd (handleUpdateMembership validatedBody orgId w) in
  (uniqueMemberships w = true -> uniqueMemberships w' = true)
  /\ (projectMembershipsBacked w = true ->
      projectMembershipsBacked w' = true).
Proof.
  destruct validatedBody as [issues|d]; [split; auto|].
  cbv zeta. rewrite handleUpdateMembership_cases.
  destruct (userById (Membership.userId d) w) as [u|]; [|split; auto].
  cbv zeta.
  destruct (membershipOf orgId (Membership.userId d) w) as [m|] eqn:Hm;
    cbn [snd]; unfold uniqueMemberships, projectMembershipsBacked;
    cbn [organizationMemberships projectMemberships logCalls
         setOrganizationMemberships]; split; intros H.
  - rewrite (distinctBy_updateFirst _ _ sameMember_sym); [exact H|].
    intros x y. apply sameMember_setRole.
  - rewrite forallb_forall in *. intros pm Hin.
    rewrite existsb_updateFirst; [now apply H|].
    intros x. apply backs_setRole.
  - rewrite (distinctBy_snoc _ _ sameMember_sym), H.
    apply find_none_existsb in Hm. unfold sameMember. cbn.
    apply negb_true_iff. exact Hm.
  - now apply backed_grows.
Qed.

(** ** [handleDeleteMembership] *)

Lemma handleDeleteMembership_run
    (d : DeleteMembership.t) (orgId : string) (w : World) :
  handleDeleteMembership (ParseSuccess d) orgId w
  = (respond 200
       (DeletedJson "Membership deleted successfully"
          (DeleteMembership.userId d)),
     logCalls
       [OrganizationMembershipDeleteMany orgId (DeleteMembership.userId d)]
       (setOrganizationMemberships
          (filter
             (fun m => negb (membershipKey orgId (DeleteMembership.userId d) m))
             (organizationMemberships w))
          (nextId w) w)).
Proof.
  unfold handleDeleteMembership, prisma_organizationMembership_deleteMany.
  unfold_prog. apply f_equal2; [reflexivity | world_eq].
Qed.

Lemma find_filter_out {A : Type} (p : A -> bool) (l : list A) :
  find p (filter (fun x => negb (p x)) l) = None.
Proof.
  induction l as [|a l IH]; cbn; [reflexivity|].
  destruct (p a) eqn:Ha; cbn; [exact IH | now rewrite Ha].
Qed.

Lemma filter_twice {A : Type} (p : A -> bool) (l : list A) :
  filter p (filter p l) = filter p l.
Proof.
  induction l as [|a l IH]; cbn; [reflexivity|].
  destruct (p a) eqn:Ha; cbn; [now rewrite Ha, IH | exact IH].
Qed.

Lemma filter_same {A : Type} (p : A -> bool) (l : list A) :
  find (fun x => negb (p x)) l = None -> filter p l = l.
Proof.
  induction l as [|a l IH]; cbn; [reflexivity|].
  destruct (p a); cbn; [|discriminate]. intros H. now rewrite IH.
Qed.

(** X10. [handleDeleteMembership] answers the same 200 whether or not a
    membership was stored.  Afterwards the user has no membership in the
    organization, the memberships of every other [(orgId, userId)] are kept
    in their order, and nothing else is touched: no audit entry, no mail, no
    other table. *)
Theorem deleteMembership_removes
    (d : DeleteMembership.t) (orgId : string) (w : World) :
  let '(r, w') := handleDeleteMembership (ParseSuccess d) orgId w in
  let key := membershipKey orgId (DeleteMembership.userId d) in
  r = respond 200
        (DeletedJson "Membership deleted successfully"
           (DeleteMembership.userId d))
  /\ membershipOf orgId (DeleteMembership.userId d) w' = None
  /\ organizationMemberships w'
     = filter (fun m => negb (key m)) (organizationMemberships w)
  /\ (membershipOf orgId (DeleteMembership.userId d) w = None ->
      organizationMemberships w' = organizationMemberships w)
  /\ users w' = users w /\ organizations w' = organizations w
  /\ projects w' = projects w
  /\ projectMemberships w' = projectMemberships w
  /\ membershipInvitations w' = membershipInvitations w
  /\ auditLogs w' = auditLogs w /\ outbox w' = outbox w
  /\ nextId w' = nextId w.
Proof.
  rewrite handleDeleteMembership_run. cbv zeta.
  unfold membershipOf.
  cbn [users organizations projects projectMemberships
       membershipInvitations auditLogs outbox organizationMemberships
       nextId logCalls setOrganizationMemberships].
  splits; try reflexivity.
  - apply find_filter_out.
  - intros H. apply filter_same.
    rewrite <- H. clear H.
    induction (organizationMemberships w) as [|a l IH]; cbn;
      [reflexivity|].
    destruct (membershipKey orgId (DeleteMembership.userId d) a);
      [reflexivity | exact IH].
Qed.

(** X11. Removing is idempotent: a second call with the same body gives the
    same answer and leaves every table as the first call left it. *)
Theorem deleteMembership_idempotent
    (d : DeleteMembership.t) (orgId : string) (w : World) :
  let '(r1, w1) := handleDeleteMembership (ParseSuccess d) orgId w in
  let '(r2, w2) := handleDeleteMembership (ParseSuccess d) orgId w1 in
  r2 = r1 /\ sameTables w2 w1.
Proof.
  rewrite handleDeleteMembership_run. cbv beta iota zeta.
  rewrite handleDeleteMembership_run. cbv beta iota zeta.
  split; [reflexivity|].
  unfold sameTables.
  cbn [users organizations projects projectMemberships
       membershipInvitations auditLogs outbox organizationMemberships
       nextId env logCalls setOrganizationMemberships].
  splits; try reflexivity. apply filter_twice.
Qed.

(** X12. [handleDeleteMembership] keeps [(orgId, userId)] unique among the
    memberships that stay. *)
Theorem deleteMembership_keeps_keys_unique
    (validatedBody : SafeParse DeleteMembership.t) (orgId : string)
    (w : World) :
  uniqueMemberships w = true ->
  uniqueMemberships (snd (handleDeleteMembership validatedBody orgId w))
  = true.
Proof.
  intros H. destruct validatedBody as [issues|d]; [exact H|].
  rewrite handleDeleteMembership_run. cbn [snd].
  unfold uniqueMemberships in *.
  cbn [organizationMemberships logCalls setOrganizationMemberships].
  now apply distinctBy_filter.
Qed.

(** ** How the handlers compose *)

Lemma userById_id (id : string) (w : World) (u : User.t) :
  userById id w = Some u -> User.id u = id.
Proof.
  intros H. apply find_some in H. destruct H as [_ H].
  now apply String.eqb_eq in H.
Qed.

(** After the upsert the key selects a row with the given role. *)
Lemma upsert_makes_member
    (m : Membership.t) (orgId : string) (w : World) (u : User.t) :
  userById (Membership.userId m) w = Some u ->
  let '(r, w') := handleUpdateMembership (ParseSuccess m) orgId w in
  r = respond 200
        (MembershipJson (Membership.userId m) (Membership.role m)
           (User.email u) (User.name u))
  /\ users w' = users w /\ organizations w' = organizations w
  /\ projects w' = projects w
  /\ exists row,
       membershipOf orgId (Membership.userId m) w' = Some row
       /\ OrganizationMembership.role row = Membership.role m.
Proof.
  intros Hu. rewrite handleUpdateMembership_cases, Hu. cbv zeta.
  destruct (membershipOf orgId (Membership.userId m) w) as [old|] eqn:Hm;
    unfold membershipOf;
    cbn [users organizations projects organizationMemberships logCalls
         setOrganizationMemberships].
  - destruct (membershipOf_key _ _ _ _ Hm) as [_ Hid].
    splits; try reflexivity; [now rewrite Hid|].
    eexists. split.
    + apply find_updateFirst; [apply membershipKey_setRole | exact Hm].
    + reflexivity.
  - splits; try reflexivity.
    eexists. split.
    + rewrite find_app. unfold membershipOf in Hm. rewrite Hm. cbn.
      unfold membershipKey. cbn. now rewrite !String.eqb_refl.
    + reflexivity.
Qed.

(** X13. A user the upsert made a member cannot be added again: a
    [handleCreateMembership] for that user's email after a
    [handleUpdateMembership] is answered the already-a-member conflict,
    leaves every table as the upsert left it, and the role stays the one the
    upsert set. *)
Theorem update_then_create_conflicts
    (m : Membership.t) (d : CreateMembership.t) (orgId : string) (w : World)
    (org : Organization.t) (u : User.t) :
  organizationById orgId w = Some org ->
  projectFound d orgId w = true ->
  userById (Membership.userId m) w = Some u ->
  userByEmail (toLowerCase (CreateMembership.email d)) w = Some u ->
  let '(r1, w1) := handleUpdateMembership (ParseSuccess m) orgId w in
  let '(r2, w2) := handleCreateMembership (ParseSuccess d) orgId w1 in
  status r1 = 200
  /\ r2 = respond 409
            (ErrorJson "User is already a member of this organization")
  /\ sameTables w2 w1
  /\ exists row,
       membershipOf orgId (User.id u) w2 = Some row
       /\ OrganizationMembership.role row = Membership.role m.
Proof.
  intros Ho Hp Hid Hu.
  pose proof (upsert_makes_member m orgId w u Hid) as H.
  destruct (handleUpdateMembership (ParseSuccess m) orgId w) as [r1 w1].
  destruct H as (-> & Hus & Hos & Hps & row & Hrow & Hrole).
  rewrite <- (userById_id _ _ _ Hid) in Hrow.
  rewrite (createMembership_already_member d orgId w1 org u row).
  - splits; try reflexivity.
    + unfold sameTables. cbn. splits; reflexivity.
    + exists row. split; [exact Hrow | exact Hrole].
  - unfold organizationById. rewrite Hos. exact Ho.
  - unfold projectFound, resolvedProject, projectIn. rewrite Hps. exact Hp.
  - unfold userByEmail. rewrite Hus. exact Hu.
  - exact Hrow.
Qed.

(** X14. Removing clears the way for adding: whatever was stored, after a
    [handleDeleteMembership] for an existing user a [handleCreateMembership]
    for that user's email succeeds, and the user is a member with the
    requested role. *)
Theorem delete_then_create_succeeds
    (dd : DeleteMembership.t) (d : CreateMembership.t) (orgId : string)
    (w : World) (org : Organization.t) (u : User.t) :
  organizationById orgId w = Some org ->
  projectFound d orgId w = true ->
  userByEmail (toLowerCase (CreateMembership.email d)) w = Some u ->
  DeleteMembership.userId dd = User.id u ->
  let '(r1, w1) := handleDeleteMembership (ParseSuccess dd) orgId w in
  let '(r2, w2) := handleCreateMembership (ParseSuccess d) orgId w1 in
  r2 = respond 200
         (MembershipJson (User.id u) (CreateMembership.role d) (User.email u)
            (User.name u))
  /\ exists row,
       membershipOf orgId (User.id u) w2 = Some row
       /\ OrganizationMembership.role row = CreateMembership.role d
       /\ count (membershipKey orgId (User.id u))
            (organizationMemberships w2) = 1.
Proof.
  intros Ho Hp Hu Hid.
  rewrite handleDeleteMembership_run, Hid. cbv beta iota zeta.
  match goal with
  | |- context [handleCreateMembership _ _ ?W] => set (w1 := W)
  end.
  assert (Hm1 : membershipOf orgId (User.id u) w1 = None).
  { unfold membershipOf, w1.
    cbn [organizationMemberships logCalls setOrganizationMemberships].
    apply find_filter_out. }
  rewrite (handleCreateMembership_cases d orgId w1).
  change (organizationById orgId w1) with (organizationById orgId w).
  change (projectFound d orgId w1) with (projectFound d orgId w).
  change (userByEmail (toLowerCase (CreateMembership.email d)) w1)
    with (userByEmail (toLowerCase (CreateMembership.email d)) w).
  rewrite Ho, Hp, Hu, Hm1. cbv zeta.
  split; [reflexivity|].
  exists (newOrgMembership d orgId u w1).
  unfold membershipOf.
  cbn [organizationMemberships extend].
  splits.
  - rewrite find_app. fold (membershipOf orgId (User.id u) w1).
    rewrite Hm1. cbn [find]. now rewrite membershipKey_new.
  - reflexivity.
  - rewrite count_app, (count_find_none _ _ _ Hm1).
    unfold count. cbn [filter]. now rewrite membershipKey_new.
Qed.

(** X15. Removing and then upserting leaves exactly one membership for the
    key, with the given role, whatever was stored before, even several rows
    of that key; the rows of every other key are as they were. *)
Theorem delete_then_update_single_row
    (dd : DeleteMembership.t) (m : Membership.t) (orgId : string)
    (w : World) (u : User.t) :
  userById (Membership.userId m) w = Some u ->
  DeleteMembership.userId dd = Membership.userId m ->
  let key := membershipKey orgId (Membership.userId m) in
  let '(r1, w1) := handleDeleteMembership (ParseSuccess dd) orgId w in
  let '(r2, w2) := handleUpdateMembership (ParseSuccess m) orgId w1 in
  r2 = respond 200
         (MembershipJson (Membership.userId m) (Membership.role m)
            (User.email u) (User.name u))
  /\ count key (organizationMemberships w2) = 1
  /\ (exists row,
        membershipOf orgId (Membership.userId m) w2 = Some row
        /\ OrganizationMembership.role row = Membership.role m)
  /\ filter (fun x => negb (key x)) (organizationMemberships w2)
     = filter (fun x => negb (key x)) (organizationMemberships w).
Proof.
  intros Hu Hid. cbv zeta.
  rewrite handleDeleteMembership_run, Hid. cbv beta iota zeta.
  match goal with
  | |- context [handleUpdateMembership _ _ ?W] => set (w1 := W)
  end.
  assert (Hm1 : membershipOf orgId (Membership.userId m) w1 = None).
  { unfold membershipOf, w1.
    cbn [organizationMemberships logCalls setOrganizationMemberships].
    apply find_filter_out. }
  rewrite (handleUpdateMembership_cases m orgId w1).
  change (userById (Membership.userId m) w1)
    with (userById (Membership.userId m) w).
  rewrite Hu. cbv zeta. rewrite Hm1.
  set (row := OrganizationMembership.mk (freshId (nextId w1)) orgId
                (Membership.userId m) (Membership.role m)).
  assert (Hk : membershipKey orgId (Membership.userId m) row = true)
    by (unfold membershipKey, row; cbn; now rewrite !String.eqb_refl).
  unfold membershipOf.
  cbn [organizationMemberships logCalls setOrganizationMemberships].
  splits.
  - reflexivity.
  - rewrite count_app, (count_find_none _ _ _ Hm1).
    unfold count. cbn [filter]. now rewrite Hk.
  - exists row. split; [|reflexivity].
    rewrite find_app. fold (membershipOf orgId (Membership.userId m) w1).
    rewrite Hm1. cbn [find]. now rewrite Hk.
  - rewrite filter_app. cbn [filter]. rewrite Hk. cbn [negb].
    rewrite app_nil_r. unfold w1.
    cbn [organizationMemberships logCalls setOrganizationMemberships].
    apply filter_twice.
Qed.

(** ** The listing *)

Lemma withUsers_total (w : World) (l : list OrganizationMembership.t) :
  forallb (fun m => isSome (userById (OrganizationMembership.userId m) w)) l
  = true ->
  exists rows,
    withUsers w l = Some rows
    /\ map fst rows = l
    /\ forall row,
         In row rows ->
         userById (OrganizationMembership.userId (fst row)) w
         = Some (snd row).
Proof.
  induction l as [|m l IH]; cbn [forallb withUsers].
  - intros _. exists []. splits; [reflexivity | reflexivity | intros ? []].
  - intros H. apply andb_true_iff in H. destruct H as [Hm Hl].
    destruct (IH Hl) as (rows & -> & Hfst & Hrows).
    destruct (userById (OrganizationMembership.userId m) w) as [u|] eqn:Hu;
      [|discriminate].
    exists ((m, u) :: rows). splits.
    + reflexivity.
    + cbn. now rewrite Hfst.
    + intros row [<-|Hin]; [exact Hu | now apply Hrows].
Qed.

Lemma withUsers_In
    (w : World) (l : list OrganizationMembership.t)
    (rows : list (OrganizationMembership.t * User.t))
    (m : OrganizationMembership.t) (u : User.t) :
  withUsers w l = Some rows ->
  In m l ->
  userById (OrganizationMembership.userId m) w = Some u ->
  In (m, u) rows.
Proof.
  revert rows. induction l as [|a l IH]; cbn [withUsers]; intros rows H Hin Hu.
  - contradiction.
  - destruct (userById (OrganizationMembership.userId a) w) as [ua|] eqn:Ha;
      [|discriminate].
    destruct (withUsers w l) as [rest|]; [|discriminate].
    injection H as <-. destruct Hin as [->|Hin].
    + left. congruence.
    + right. now apply IH.
Qed.


Lemma withUsers_same_users
    (w w' : World) (l : list OrganizationMembership.t) :
  users w' = users w -> withUsers w' l = withUsers w l.
Proof.
  intros H. induction l as [|a l IH]; cbn [withUsers]; [reflexivity|].
  unfold userById. now rewrite H, IH.
Qed.

(** X16. When every membership of the organization has its user, the listing
    answers 200 with one entry per membership of that organization, in the
    order of the table, none for another organization; each entry carries
    the row's user id and role and the email and name of that user.  The
    tables are left as they were. *)
Theorem getMemberships_lists_the_organization (orgId : string) (w : World) :
  membersHaveUsers orgId w = true ->
  let '(r, w') := handleGetMemberships orgId w in
  sameTables w' w
  /\ exists entries,
       r = Some (respondMemberships 200 entries)
       /\ map MemberEntry.userId entries
          = map OrganizationMembership.userId
              (filter
                 (fun m => String.eqb (OrganizationMembership.orgId m) orgId)
                 (organizationMemberships w))
       /\ map MemberEntry.role entries
          = map OrganizationMembership.role
              (filter
                 (fun m => String.eqb (OrganizationMembership.orgId m) orgId)
                 (organizationMemberships w))
       /\ forall e,
            In e entries ->
            exists u,
              userById (MemberEntry.userId e) w = Some u
              /\ MemberEntry.email e = User.email u
              /\ MemberEntry.name e = User.name u.
Proof.
  intros H. unfold membersHaveUsers in H.
  destruct (withUsers_total w _ H) as (rows & Hrows & Hfst & Hus).
  unfold handleGetMemberships, prisma_organizationMembership_findMany,
    bind, ret.
  rewrite Hrows.
  split; [unfold sameTables; splits; reflexivity|].
  exists (map memberEntry rows). fold (membershipsOfOrg orgId w).
  rewrite <- Hfst. rewrite !map_map. splits; try reflexivity.
  intros e He. apply in_map_iff in He. destruct He as (row & <- & Hin).
  exists (snd row). splits; try reflexivity. now apply Hus.
Qed.

Lemma forallb_filter_updateFirst {A : Type}
    (q p k : A -> bool) (f : A -> A) (l : list A) :
  (forall x, q (f x) = q x) -> (forall x, p (f x) = p x) ->
  forallb q (filter p l) = true ->
  forallb q (filter p (updateFirst k f l)) = true.
Proof.
  intros Hq Hp. induction l as [|a l IH]; cbn; [reflexivity|].
  destruct (k a); cbn.
  - rewrite Hp. destruct (p a); cbn; [now rewrite Hq | auto].
  - destruct (p a); cbn; [|auto].
    intros H. apply andb_true_iff in H. destruct H as [-> Hl]. auto.
Qed.

(** X17. What the upsert wrote is listed: after a [handleUpdateMembership]
    for an existing user the listing of the organization answers 200 and
    holds the entry [(userId, role, email, name)] of that user with the role
    just given. *)
Theorem update_then_list
    (m : Membership.t) (orgId : string) (w : World) (u : User.t) :
  userById (Membership.userId m) w = Some u ->
  membersHaveUsers orgId w = true ->
  let '(r1, w1) := handleUpdateMembership (ParseSuccess m) orgId w in
  let '(r2, w2) := handleGetMemberships orgId w1 in
  exists entries,
    r2 = Some (respondMemberships 200 entries)
    /\ In (MemberEntry.mk (Membership.userId m) (Membership.role m)
             (User.email u) (User.name u)) entries.
Proof.
  intros Hu Hall.
  rewrite handleUpdateMembership_cases, Hu. cbv zeta.
  unfold handleGetMemberships, prisma_organizationMembership_findMany,
    bind, ret.
  unfold membersHaveUsers in Hall.
  destruct (membershipOf orgId (Membership.userId m) w) as [old|] eqn:Hm;
    cbv beta iota zeta;
    match goal with
    | |- context [withUsers ?W _] => set (w1 := W)
    end.
  - (* the stored row is rewritten *)
    destruct (membershipOf_key _ _ _ _ Hm) as [Hoid Huid].
    assert (Hall1 :
      forallb
        (fun x => isSome (userById (OrganizationMembership.userId x) w))
        (membershipsOfOrg orgId w1) = true).
    { unfold membershipsOfOrg, w1.
      cbn [organizationMemberships logCalls setOrganizationMemberships].
      apply forallb_filter_updateFirst;
        [reflexivity | reflexivity | exact Hall]. }
    destruct (withUsers_total w _ Hall1) as (rows & Hrows & _ & _).
    rewrite (withUsers_same_users w w1) by reflexivity.
    rewrite Hrows.
    exists (map memberEntry rows). split; [reflexivity|].
    apply in_map_iff.
    exists (OrganizationMembership.setRole (Membership.role m) old, u).
    split; [unfold memberEntry; cbn; now rewrite Huid|].
    apply (withUsers_In w _ rows _ u Hrows).
    + unfold membershipsOfOrg, w1.
      cbn [organizationMemberships logCalls setOrganizationMemberships].
      apply filter_In. split.
      * assert (Hf : find (membershipKey orgId (Membership.userId m))
                       (updateFirst (membershipKey orgId (Membership.userId m))
                          (OrganizationMembership.setRole (Membership.role m))
                          (organizationMemberships w))
                     = Some (OrganizationMembership.setRole
                               (Membership.role m) old))
          by (apply find_updateFirst;
              [apply membershipKey_setRole | exact Hm]).
        apply find_some in Hf. apply Hf.
      * cbn. rewrite Hoid. apply String.eqb_refl.
    + cbn. rewrite Huid. exact Hu.
  - (* a row is appended *)
    assert (Hall1 :
      forallb
        (fun x => isSome (userById (OrganizationMembership.userId x) w))
        (membershipsOfOrg orgId w1) = true).
    { unfold membershipsOfOrg, w1.
      cbn [organizationMemberships logCalls setOrganizationMemberships].
      rewrite filter_app, forallb_app. fold (membershipsOfOrg orgId w).
      rewrite Hall. cbn. rewrite String.eqb_refl. cbn. now rewrite Hu. }
    destruct (withUsers_total w _ Hall1) as (rows & Hrows & _ & _).
    rewrite (withUsers_same_users w w1) by reflexivity.
    rewrite Hrows.
    exists (map memberEntry rows). split; [reflexivity|].
    apply in_map_iff.
    exists (OrganizationMembership.mk (freshId (nextId w)) orgId
              (Membership.userId m) (Membership.role m), u).
    split; [reflexivity|].
    apply (withUsers_In w _ rows _ u Hrows); [|exact Hu].
    unfold membershipsOfOrg, w1.
    cbn [organizationMemberships logCalls setOrganizationMemberships].
    apply filter_In. split.
    + apply in_or_app. right. now left.
    + cbn. apply String.eqb_refl.
Qed.



(** X19. A member that was added is listed: after a
    [handleCreateMembership] that answered 200 for an existing user, the
    listing of the organization answers 200 and holds an entry with that
    user's id and the requested role. *)
Theorem create_then_list
    (d : CreateMembership.t) (orgId : string) (w : World)
    (org : Organization.t) (u : User.t) :
  organizationById orgId w = Some org ->
  projectFound d orgId w = true ->
  userByEmail (toLowerCase (CreateMembership.email d)) w = Some u ->
  membershipOf orgId (User.id u) w = None ->
  membersHaveUsers orgId w = true ->
  let '(r1, w1) := handleCreateMembership (ParseSuccess d) orgId w in
  let '(r2, w2) := handleGetMemberships orgId w1 in
  status r1 = 200
  /\ exists entries e,
       r2 = Some (respondMemberships 200 entries)
       /\ In e entries
       /\ MemberEntry.userId e = User.id u
       /\ MemberEntry.role e = CreateMembership.role d.
Proof.
  intros Ho Hp Hu Hm Hall.
  rewrite handleCreateMembership_cases, Ho, Hp, Hu, Hm.
  cbv beta iota zeta.
  unfold handleGetMemberships, prisma_organizationMembership_findMany,
    bind, ret.
  match goal with
  | |- context [withUsers ?W _] => set (w1 := W)
  end.
  assert (Hin : In u (users w)).
  { unfold userByEmail in Hu. apply find_some in Hu. apply Hu. }
  destruct (find_key_In (fun x => String.eqb (User.id x) (User.id u))
              (users w) u Hin (String.eqb_refl _)) as (u0 & Hu0 & _).
  fold (userById (User.id u) w) in Hu0.
  unfold membersHaveUsers in Hall.
  assert (Hall1 :
    forallb (fun x => isSome (userById (OrganizationMembership.userId x) w))
      (membershipsOfOrg orgId w1) = true).
  { unfold membershipsOfOrg, w1. cbn [organizationMemberships extend].
    rewrite filter_app, forallb_app. fold (membershipsOfOrg orgId w).
    rewrite Hall. cbn. rewrite String.eqb_refl. cbn. now rewrite Hu0. }
  destruct (withUsers_total w _ Hall1) as (rows & Hrows & _ & _).
  rewrite (withUsers_same_users w w1) by reflexivity.
  rewrite Hrows.
  split; [reflexivity|].
  exists (map memberEntry rows),
    (memberEntry (newOrgMembership d orgId u w, u0)).
  splits; try reflexivity.
  apply in_map.
  apply (withUsers_In w _ rows _ u0 Hrows); [|exact Hu0].
  unfold membershipsOfOrg, w1. cbn [organizationMemberships extend].
  apply filter_In. split.
  - apply in_or_app. right. now left.
  - cbn. apply String.eqb_refl.
Qed.

(** ** The admin route *)

Section AdminRouteFacts.
Variable Body : Type.
Variable parseMembership : Body -> SafeParse Membership.t.
Variable parseDelete : Body -> SafeParse DeleteMembership.t.
Variable auth : Request Body -> AdminAuth.

(** X20. No request to the admin route records an audit entry, sends a mail,
    or touches the invitations, the project memberships, the users, the
    organizations or the projects, whatever its method, body and
    authorization. *)
Theorem adminRoute_never_audits_or_mails (req : Request Body) (w : World) :
  let w' := snd (handler parseMembership parseDelete auth req w) in
  auditLogs w' = auditLogs w /\ outbox w' = outbox w
  /\ membershipInvitations w' = membershipInvitations w
  /\ projectMemberships w' = projectMemberships w
  /\ users w' = users w /\ organizations w' = organizations w
  /\ projects w' = projects w.
Proof.
  cbv zeta. unfold handler.
  destruct (auth req) as [|answer]; [|now splits].
  destruct (methodIs req "GET"); [|destruct (methodIs req "PUT");
    [|destruct (methodIs req "DELETE")]]; unfold bind, ret.
  - unfold handleGetMemberships, prisma_organizationMembership_findMany,
      bind, ret.
    destruct (withUsers w (membershipsOfOrg (organizationId req) w));
      now splits.
  - destruct (parseMembership (body req)) as [issues|d]; [now splits|].
    rewrite handleUpdateMembership_cases.
    destruct (userById (Membership.userId d) w); [|now splits].
    cbv zeta.
    destruct (membershipOf (organizationId req) (Membership.userId d) w);
      now splits.
  - destruct (parseDelete (body req)) as [issues|d]; [now splits|].
    rewrite handleDeleteMembership_run. now splits.
  - now splits.
Qed.

(** X21. The admin route changes the memberships only for an authorized PUT
    or DELETE.  A request the authentication denied gets the answer of the
    authentication and no handler runs; an authorized request whose method
    is none of GET, PUT and DELETE - POST among them - gets 405 "Method not
    allowed"; in both cases the world is left exactly as it was. *)
Theorem adminRoute_gate (req : Request Body) (w : World) :
  let '(r, w') := handler parseMembership parseDelete auth req w in
  (forall answer,
      auth req = Denied answer -> r = Some (SentJson answer) /\ w' = w)
  /\ (auth req = Authorized ->
      methodIs req "GET" = false -> methodIs req "PUT" = false ->
      methodIs req "DELETE" = false ->
      r = Some (SentJson (respond 405 (ErrorJson "Method not allowed")))
      /\ w' = w)
  /\ (organizationMemberships w' <> organizationMemberships w ->
      auth req = Authorized
      /\ (method req = Some "PUT" \/ method req = Some "DELETE")).
Proof.
  unfold handler.
  destruct (auth req) as [|answer].
  2: { unfold ret. splits.
       - intros a [= <-]. split; reflexivity.
       - discriminate.
       - intros H. now contradiction H. }
  assert (Hname : forall name,
    methodIs req name = true -> method req = Some name).
  { intros name H. unfold methodIs in H.
    destruct (method req) as [m|]; [|discriminate].
    apply String.eqb_eq in H. now subst. }
  destruct (methodIs req "GET") eqn:Hget;
    [|destruct (methodIs req "PUT") eqn:Hput;
      [|destruct (methodIs req "DELETE") eqn:Hdel]];
    unfold bind, ret.
  - unfold handleGetMemberships, prisma_organizationMembership_findMany,
      bind, ret.
    destruct (withUsers w (membershipsOfOrg (organizationId req) w));
      (splits; [discriminate | discriminate | intros H; now contradiction H]).
  - destruct (handleUpdateMembership (parseMembership (body req))
                (organizationId req) w) as [r w'].
    splits; [discriminate | discriminate |].
    intros _. split; [reflexivity|]. left. now apply Hname.
  - destruct (handleDeleteMembership (parseDelete (body req))
                (organizationId req) w) as [r w'].
    splits; [discriminate | discriminate |].
    intros _. split; [reflexivity|]. right. now apply Hname.
  - splits; [discriminate | |intros H; now contradiction H].
    intros _ _ _ _. split; reflexivity.
Qed.

End AdminRouteFacts.

(** ** The further statements at the sample data *)

Lemma createMembership_project_not_found_witness :
  projectIn "proj_old" "org_1" Sample.world = None
  /\ fst (handleCreateMembership (ParseSuccess Sample2.addToDeleted) "org_1"
            Sample.world)
     = respond 404 (ErrorJson "Project not found in this organization").
Proof.
  split; [reflexivity|].
  rewrite (createMembership_project_not_found Sample2.addToDeleted "org_1"
             "proj_old" Sample.world Sample.acme eq_refl eq_refl eq_refl).
  - reflexivity.
  - intros p [<-|[<-|[<-|[]]]] Hid; try discriminate Hid.
    right. discriminate.
Defined.

Lemma createMembership_project_role_ignored_witness :
  handleCreateMembership
    (ParseSuccess
       (CreateMembership.mk "new@x.com" MEMBER (Some "proj_1") (Some NONE)))
    "org_1" Sample.world
  = handleCreateMembership
      (ParseSuccess
         (CreateMembership.mk "new@x.com" MEMBER (Some "proj_1") None))
      "org_1" Sample.world.
Proof.
  apply (proj2 (createMembership_project_role_ignored "new@x.com" MEMBER
                  (Some "proj_1") (Some NONE) "org_1" Sample.world)).
  left. reflexivity.
Defined.

Lemma createMembership_mail_witness :
  Forall
    (fun mail =>
       InvitationEmail.to mail = "existing@x.com"
       /\ InvitationEmail.inviterEmail mail = "noreply@langfuse.com")
    (outbox
       (snd (handleCreateMembership (ParseSuccess Sample.addExisting) "org_1"
               Sample.world)))
  /\ List.length
       (outbox
          (snd (handleCreateMembership (ParseSuccess Sample.addExisting)
                  "org_1" Sample.world))) = 1.
Proof.
  split; [|reflexivity].
  generalize (createMembership_mail Sample.addExisting "org_1" Sample.world).
  destruct (handleCreateMembership (ParseSuccess Sample.addExisting) "org_1"
              Sample.world) as [r w'].
  cbn [snd]. intros H. apply Forall_forall. intros mail Hin.
  destruct (H mail Hin) as (Hto & _ & _ & _ & _ & _ & Hdefault & _).
  split; [exact Hto | exact (Hdefault eq_refl)].
Defined.

Lemma createMembership_request_case_witness :
  toLowerCase "NEW@x.com" = toLowerCase "new@x.com"
  /\ membershipInvitations
       (snd (handleCreateMembership
               (ParseSuccess (CreateMembership.mk "NEW@x.com" MEMBER None None))
               "org_1" Sample.world))
     = membershipInvitations
         (snd (handleCreateMembership (ParseSuccess Sample.inviteNew) "org_1"
                 Sample.world)).
Proof.
  split; [reflexivity|].
  generalize (createMembership_request_case "new@x.com" "NEW@x.com" MEMBER
                None None "org_1" Sample.world eq_refl).
  change (CreateMembership.mk "new@x.com" MEMBER None None)
    with Sample.inviteNew.
  destruct (handleCreateMembership (ParseSuccess Sample.inviteNew) "org_1"
              Sample.world) as [r w1].
  destruct (handleCreateMembership
              (ParseSuccess (CreateMembership.mk "NEW@x.com" MEMBER None None))
              "org_1" Sample.world) as [r' w1'].
  intros H. exact (proj1 (proj2 (proj2 (proj2 H)))).
Defined.



Lemma updateMembership_frame_witness :
  userById "nobody" Sample2.world = None
  /\ fst (handleUpdateMembership
            (ParseSuccess (Membership.mk "nobody" OWNER)) "org_1"
            Sample2.world)
     = respond 404 (ErrorJson "User not found").
Proof.
  split; [reflexivity|].
  generalize (updateMembership_frame (Membership.mk "nobody" OWNER) "org_1"
                Sample2.world).
  destruct (handleUpdateMembership
              (ParseSuccess (Membership.mk "nobody" OWNER)) "org_1"
              Sample2.world) as [r w'].
  intros H. exact (proj1 (proj1 H eq_refl)).
Defined.

Lemma updateMembership_keeps_invariants_witness :
  uniqueMemberships Sample2.world = true
  /\ projectMembershipsBacked Sample2.world = true
  /\ uniqueMemberships
       (snd (handleUpdateMembership (ParseSuccess Sample.updateAgain) "org_1"
               Sample2.world)) = true
  /\ projectMembershipsBacked
       (snd (handleUpdateMembership (ParseSuccess Sample.updateAgain) "org_1"
               Sample2.world)) = true.
Proof.
  split; [reflexivity|]. split; [reflexivity|].
  generalize (updateMembership_keeps_invariants
                (ParseSuccess Sample.updateAgain) "org_1" Sample2.world).
  cbv zeta. intros [H1 H2]. split; [exact (H1 eq_refl) | exact (H2 eq_refl)].
Defined.

Lemma deleteMembership_removes_witness :
  membershipOf "org_1" "u1" Sample2.world = Some Sample2.member
  /\ membershipOf "org_1" "u1"
       (snd (handleDeleteMembership (ParseSuccess Sample2.remove) "org_1"
               Sample2.world)) = None
  /\ (membershipOf "org_1" "u1" Sample.world = None ->
      organizationMemberships
        (snd (handleDeleteMembership (ParseSuccess Sample2.remove) "org_1"
                Sample.world))
      = organizationMemberships Sample.world).
Proof.
  split; [reflexivity|]. split.
  - generalize (deleteMembership_removes Sample2.remove "org_1"
                  Sample2.world).
    destruct (handleDeleteMembership (ParseSuccess Sample2.remove) "org_1"
                Sample2.world) as [r w'].
    intros H. exact (proj1 (proj2 H)).
  - generalize (deleteMembership_removes Sample2.remove "org_1" Sample.world).
    destruct (handleDeleteMembership (ParseSuccess Sample2.remove) "org_1"
                Sample.world) as [r w'].
    intros H. exact (proj1 (proj2 (proj2 (proj2 H)))).
Defined.

Lemma deleteMembership_keeps_keys_unique_witness :
  uniqueMemberships Sample2.world = true
  /\ uniqueMemberships
       (snd (handleDeleteMembership (ParseSuccess Sample2.remove) "org_1"
               Sample2.world)) = true.
Proof.
  split; [reflexivity|].
  exact (deleteMembership_keeps_keys_unique (ParseSuccess Sample2.remove)
           "org_1" Sample2.world eq_refl).
Defined.

Lemma update_then_create_conflicts_witness :
  userById "u1" Sample.world = Some Sample.existing
  /\ userByEmail (toLowerCase "existing@x.com") Sample.world
     = Some Sample.existing
  /\ fst (handleCreateMembership (ParseSuccess Sample.addExisting) "org_1"
            (snd (handleUpdateMembership (ParseSuccess Sample.update) "org_1"
                    Sample.world)))
     = respond 409
         (ErrorJson "User is already a member of this organization").
Proof.
  split; [reflexivity|]. split; [reflexivity|].
  generalize (update_then_create_conflicts Sample.update Sample.addExisting
                "org_1" Sample.world Sample.acme Sample.existing
                eq_refl eq_refl eq_refl eq_refl).
  destruct (handleUpdateMembership (ParseSuccess Sample.update) "org_1"
              Sample.world) as [r1 w1].
  cbn [snd].
  destruct (handleCreateMembership (ParseSuccess Sample.addExisting) "org_1"
              w1) as [r2 w2].
  intros H. exact (proj1 (proj2 H)).
Defined.

Lemma delete_then_create_succeeds_witness :
  membershipOf "org_1" "u1" Sample2.world = Some Sample2.member
  /\ fst (handleCreateMembership (ParseSuccess Sample.addExistingAgain)
            "org_1"
            (snd (handleDeleteMembership (ParseSuccess Sample2.remove)
                    "org_1" Sample2.world)))
     = respond 200 (MembershipJson "u1" OWNER "existing@x.com" "Existing User").
Proof.
  split; [reflexivity|].
  generalize (delete_then_create_succeeds Sample2.remove
                Sample.addExistingAgain "org_1" Sample2.world Sample.acme
                Sample.existing eq_refl eq_refl eq_refl eq_refl).
  destruct (handleDeleteMembership (ParseSuccess Sample2.remove) "org_1"
              Sample2.world) as [r1 w1].
  cbn [snd].
  destruct (handleCreateMembership (ParseSuccess Sample.addExistingAgain)
              "org_1" w1) as [r2 w2].
  intros H. exact (proj1 H).
Defined.

Lemma delete_then_update_single_row_witness :
  userById "u1" Sample2.world = Some Sample.existing
  /\ count (membershipKey "org_1" "u1")
       (organizationMemberships
          (snd (handleUpdateMembership (ParseSuccess Sample.updateAgain)
                  "org_1"
                  (snd (handleDeleteMembership (ParseSuccess Sample2.remove)
                          "org_1" Sample2.world))))) = 1.
Proof.
  split; [reflexivity|].
  generalize (delete_then_update_single_row Sample2.remove Sample.updateAgain
                "org_1" Sample2.world Sample.existing eq_refl eq_refl).
  cbv zeta.
  destruct (handleDeleteMembership (ParseSuccess Sample2.remove) "org_1"
              Sample2.world) as [r1 w1].
  cbn [snd].
  destruct (handleUpdateMembership (ParseSuccess Sample.updateAgain) "org_1"
              w1) as [r2 w2].
  intros H. exact (proj1 (proj2 H)).
Defined.

Lemma getMemberships_lists_the_organization_witness :
  membersHaveUsers "org_1" Sample2.world = true
  /\ fst (handleGetMemberships "org_1" Sample2.world)
     = Some
         (respondMemberships 200
            [MemberEntry.mk "u1" ADMIN "existing@x.com" "Existing User"])
  /\ exists entries,
       fst (handleGetMemberships "org_1" Sample2.world)
       = Some (respondMemberships 200 entries)
       /\ map MemberEntry.userId entries = ["u1"].
Proof.
  split; [reflexivity|]. split; [reflexivity|].
  generalize (getMemberships_lists_the_organization "org_1" Sample2.world
                eq_refl).
  destruct (handleGetMemberships "org_1" Sample2.world) as [r w'].
  intros (_ & entries & Hr & Hids & _).
  exists entries. split; [exact Hr | exact Hids].
Defined.

Lemma update_then_list_witness :
  membersHaveUsers "org_1" Sample2.world = true
  /\ exists entries,
       fst (handleGetMemberships "org_1"
              (snd (handleUpdateMembership (ParseSuccess Sample.updateAgain)
                      "org_1" Sample2.world)))
       = Some (respondMemberships 200 entries)
       /\ In (MemberEntry.mk "u1" MEMBER "existing@x.com" "Existing User")
            entries.
Proof.
  split; [reflexivity|].
  generalize (update_then_list Sample.updateAgain "org_1" Sample2.world
                Sample.existing eq_refl eq_refl).
  destruct (handleUpdateMembership (ParseSuccess Sample.updateAgain) "org_1"
              Sample2.world) as [r1 w1].
  cbn [snd].
  destruct (handleGetMemberships "org_1" w1) as [r2 w2].
  intros H. exact H.
Defined.


Lemma create_then_list_witness :
  membershipOf "org_1" "u1" Sample.world = None
  /\ membersHaveUsers "org_1" Sample.world = true
  /\ exists entries e,
       fst (handleGetMemberships "org_1"
              (snd (handleCreateMembership (ParseSuccess Sample.addExisting)
                      "org_1" Sample.world)))
       = Some (respondMemberships 200 entries)
       /\ In e entries
       /\ MemberEntry.userId e = "u1"
       /\ MemberEntry.role e = ADMIN.
Proof.
  split; [reflexivity|]. split; [reflexivity|].
  generalize (create_then_list Sample.addExisting "org_1" Sample.world
                Sample.acme Sample.existing
                eq_refl eq_refl eq_refl eq_refl eq_refl).
  destruct (handleCreateMembership (ParseSuccess Sample.addExisting) "org_1"
              Sample.world) as [r1 w1].
  cbn [snd].
  destruct (handleGetMemberships "org_1" w1) as [r2 w2].
  intros H. exact (proj2 H).
Defined.

Lemma adminRoute_gate_witness :
  Sample2.auth Sample2.post = Authorized
  /\ handler Sample2.asMembership Sample2.asDelete Sample2.auth Sample2.post
       Sample2.world
     = (Some (SentJson (respond 405 (ErrorJson "Method not allowed"))),
        Sample2.world)
  /\ handler Sample2.asMembership Sample2.asDelete Sample2.auth
       Sample2.locked Sample2.world
     = (Some (SentJson (respond 401 (ErrorJson "Unauthorized"))),
        Sample2.world).
Proof.
  split; [reflexivity|].
  generalize (adminRoute_gate Sample2.Body Sample2.asMembership
                Sample2.asDelete Sample2.auth Sample2.post Sample2.world).
  generalize (adminRoute_gate Sample2.Body Sample2.asMembership
                Sample2.asDelete Sample2.auth Sample2.locked Sample2.world).
  destruct (handler Sample2.asMembership Sample2.asDelete Sample2.auth
              Sample2.locked Sample2.world) as [rl wl].
  destruct (handler Sample2.asMembership Sample2.asDelete Sample2.auth
              Sample2.post Sample2.world) as [rp wp].
  intros (Hdenied & _) (_ & H405 & _).
  destruct (H405 eq_refl eq_refl eq_refl eq_refl) as [-> ->].
  destruct (Hdenied _ eq_refl) as [-> ->].
  split; reflexivity.
Defined.
